(** * Submission intake of easy-form-snap: spam classification and persistence

    Shallow embedding of [supabase/functions/submit-form/index.ts]:
    the spam evaluator [detectSpam], the notification dispatcher
    [sendNotificationEmail] and the request handler passed to [serve].

    Conventions of the embedding.
    - A JavaScript object used as a string-keyed mapping is a [gmap string _];
      a missing property ([undefined]) is [None].
    - Strings are the UTF-8 bytes of the JavaScript string.
    - [Date.now()] is an integer of [Z].  [parseInt] gives the integer its
      digits denote, [None] for [NaN]; the Number the runtime returns is the
      double nearest to that integer.  The only use of these numbers is the
      test [(now - t) / 1000 < 2] and the window test [ts > now - 300000]; for
      an integral [now] below 2^53 the first one holds in double precision
      exactly when [now - t < 2000] holds in [Z] for the integer read
      (rounding is monotone and keeps the integers up to 2^53, see
      [rounding_keeps_timing], and 2000/1000 is exact), so no rounding is
      modelled.
    - A call that can throw has a [completion] as its result: the value
      returned, or what was thrown.
    - The Supabase query builder is awaited without [throwOnError]: a failed
      query resolves to [{ data: null, error }], it does not reject.
      [resend.emails.send] resolves to [{ data, error }] or rejects. *)

From Stdlib Require Import ZArith String Ascii.
From stdpp Require Import gmap strings list fin_maps pretty.

Set Warnings "-register-all".

Local Open Scope Z_scope.

(** ** JavaScript values *)

(** JSON numbers are doubles; the code only converts them to booleans and to
    strings, so the number type is an interface with these two conversions
    of the runtime. *)
Class Numbers (num : Type) := {
  num_truthy : num -> bool;
  num_to_string : num -> string
}.

(** What a call does: it returns a value, or it throws. *)
Inductive completion (A : Type) :=
| Returns (a : A)
| Throws (thrown : string).
Arguments Returns {A} a.
Arguments Throws {A} thrown.

(** A call that returns [p.1] and leaves the state [p.2]. *)
Definition returned {A B : Type} (p : A * B) : completion A * B :=
  (Returns p.1, p.2).

Section Runtime.

Context `{Numbers num}.

Inductive value :=
| VNull
| VBool (b : bool)
| VNum (n : num)
| VStr (s : string)
| VArr (l : list value)
| VObj (l : list (string * value)).

(** [typeof v === 'string'] *)
Definition is_string (v : value) : bool :=
  match v with VStr _ => true | _ => false end.

(** ToBoolean of a property read: [undefined], [null], [false], [0], [NaN]
    and the empty string are falsy. *)
Definition truthy (p : option value) : bool :=
  match p with
  | None => false
  | Some VNull => false
  | Some (VBool b) => b
  | Some (VNum n) => num_truthy n
  | Some (VStr s) => negb (String.eqb s "")
  | Some (VArr _) => true
  | Some (VObj _) => true
  end.

(** [p !== ''] *)
Definition strict_neq_empty (p : option value) : bool :=
  match p with
  | Some (VStr s) => negb (String.eqb s "")
  | _ => true
  end.

(** The object has an own property [key]. *)
Definition has_own (key : string) (l : list (string * value)) : bool :=
  existsb (fun kv => String.eqb kv.1 key) l.

(** ToString of a value, as [parseInt] applies it to a non-string argument;
    [None] when it throws a TypeError.  Inside an array [null] prints as the
    empty string.  An object parsed from JSON prints as [[object Object]]
    through the inherited [toString], unless it has an own property
    [toString]: that one is not callable, [valueOf] does not give a primitive
    either, and the conversion throws. *)
Fixpoint to_string (v : value) : option string :=
  match v with
  | VNull => Some "null"
  | VBool true => Some "true"
  | VBool false => Some "false"
  | VNum n => Some (num_to_string n)
  | VStr s => Some s
  | VArr l =>
      (fix join (l : list value) : option string :=
         match l with
         | [] => Some ""
         | [e] => match e with VNull => Some "" | _ => to_string e end
         | e :: l' =>
             match (match e with VNull => Some "" | _ => to_string e end),
                   join l' with
             | Some first, Some others => Some (first +:+ "," +:+ others)
             | _, _ => None
             end
         end) l
  | VObj l => if has_own "toString" l then None else Some "[object Object]"
  end.

(** What a failed conversion to a primitive throws. *)
Definition type_error : string :=
  "TypeError: Cannot convert object to primitive value".

(** ** [parseInt] without a radix argument *)

(** The white space [parseInt] skips (StrWhiteSpaceChar), as UTF-8. *)
Definition white_space : list string :=
  let b (l : list nat) : string :=
    string_of_list_ascii (List.map ascii_of_nat l) in
  [ b [9%nat]; b [10%nat]; b [11%nat]; b [12%nat]; b [13%nat]; b [32%nat];
    b [194; 160]%nat;
    b [225; 154; 128]%nat;
    b [226; 128; 128]%nat; b [226; 128; 129]%nat; b [226; 128; 130]%nat;
    b [226; 128; 131]%nat; b [226; 128; 132]%nat; b [226; 128; 133]%nat;
    b [226; 128; 134]%nat; b [226; 128; 135]%nat; b [226; 128; 136]%nat;
    b [226; 128; 137]%nat; b [226; 128; 138]%nat;
    b [226; 128; 168]%nat; b [226; 128; 169]%nat; b [226; 128; 175]%nat;
    b [226; 129; 159]%nat;
    b [227; 128; 128]%nat;
    b [239; 187; 191]%nat ].

(** Length of the white-space sequence [s] starts with, if any. *)
Definition ws_prefix (s : string) : option nat :=
  String.length <$> List.find (fun w => String.prefix w s) white_space.

(** Skip leading white space; [skip] counts the bytes still to drop of the
    sequence found last. *)
Fixpoint trim_start (skip : nat) (s : string) : string :=
  match skip, s with
  | S k, String _ s' => trim_start k s'
  | S _, EmptyString => EmptyString
  | O, EmptyString => EmptyString
  | O, String _ s' =>
      match ws_prefix s with
      | Some (S k) => trim_start k s'
      | _ => s
      end
  end.

Definition digit_value (c : ascii) : option Z :=
  let n := Z.of_nat (nat_of_ascii c) in
  if (48 <=? n) && (n <=? 57) then Some (n - 48)
  else if (97 <=? n) && (n <=? 122) then Some (n - 87)
  else if (65 <=? n) && (n <=? 90) then Some (n - 55)
  else None.

(** The longest prefix of digits of the radix, read as a number; [None]
    when there is no digit. *)
Fixpoint read_digits (radix : Z) (acc : option Z) (s : string) : option Z :=
  match s with
  | EmptyString => acc
  | String c s' =>
      match digit_value c with
      | Some d =>
          if d <? radix
          then read_digits radix (Some (radix * default 0 acc + d)) s'
          else acc
      | None => acc
      end
  end.

(** [parseInt] of a string: white space skipped, a sign, a [0x] prefix, the
    digits.  The result is the integer the digits denote ([None] for [NaN]);
    the runtime returns the double nearest to it, the same number up to
    2^53. *)
Definition parseInt_string (input : string) : option Z :=
  let s := trim_start 0 input in
  let '(sign, s) :=
    match s with
    | String "-" s' => (-1, s')
    | String "+" s' => (1, s')
    | _ => (1, s)
    end in
  let '(radix, s) :=
    match s with
    | String "0" (String "x" s') => (16, s')
    | String "0" (String "X" s') => (16, s')
    | _ => (10, s)
    end in
  Z.mul sign <$> read_digits radix None s.

(** [parseInt v]: the integer read, [None] for [NaN]; it throws when the
    conversion of [v] to a string does. *)
Definition parseInt (v : value) : completion (option Z) :=
  match to_string v with
  | Some s => Returns (parseInt_string s)
  | None => Throws type_error
  end.

(** ** Occurrences of [/https?:\/\//g] *)

(** Number of matches of the global regular expression in [s]: matches are
    taken leftmost first and do not overlap, so after a match its remaining
    characters ([skip] of them) are passed over. *)
Fixpoint count_url_matches (skip : nat) (s : string) : nat :=
  match s with
  | EmptyString => O
  | String _ s' =>
      match skip with
      | S k => count_url_matches k s'
      | O =>
          if String.prefix "https://" s then S (count_url_matches 7 s')
          else if String.prefix "http://" s then S (count_url_matches 6 s')
          else count_url_matches 0 s'
      end
  end.

(** ** The spam evaluator *)

Record signal := Signal { signal_name : string; score : Z }.

Record spam_check := SpamCheck {
  isSpam : bool;
  reason : string;
  signals : list signal
}.

(** [(v.match(/https?:\/\//g) || []).length > 2] for some string value *)
Definition hasMultipleUrls (data : gmap string value) : bool :=
  let values := List.filter is_string (snd <$> map_to_list data) in
  existsb
    (fun v =>
       match v with
       | VStr v => (2 <? count_url_matches 0 v)%nat
       | _ => false
       end)
    values.

(** [signals.reduce((sum, s) => sum + s.score, 0)] *)
Definition totalScore (signals : list signal) : Z :=
  fold_left (fun sum s => sum + score s) signals 0.

(** Lines 70-77: the verdict from the signals recorded so far. *)
Definition score_signals (signals : list signal) : spam_check :=
  let isSpam := 70 <=? totalScore signals in
  {| isSpam := isSpam;
     reason := if isSpam then "Spam score threshold exceeded" else "";
     signals := signals |}.

(** Lines 62-77: the suspicious-pattern check, then the verdict. *)
Definition check_patterns (data : gmap string value) (signals : list signal)
  : spam_check :=
  let signals :=
    if hasMultipleUrls data
    then signals ++ [Signal "multiple_urls" 60]
    else signals in
  score_signals signals.

(** Line 29 *)
Definition honeypot_filled (data : gmap string value) : bool :=
  truthy (data !! "__honeypot") && strict_neq_empty (data !! "__honeypot").

(** Lines 35-40; [now] is the clock read at line 37.  [NaN < 2] is false. *)
Definition too_fast (data : gmap string value) (now : Z) : completion bool :=
  match data !! "__timestamp" with
  | Some timestamp =>
      if truthy (Some timestamp) then
        match parseInt timestamp with
        | Returns (Some submissionTime) => Returns (now - submissionTime <? 2000)
        | Returns None => Returns false
        | Throws thrown => Throws thrown
        end
      else Returns false
  | None => Returns false
  end.

(** Line 51: the recorded timestamps of [ip] newer than five minutes. *)
Definition in_window (now : Z) (timestamps : list Z) : list Z :=
  filter (fun ts => now - 5 * 60 * 1000 < ts) timestamps.

(** Lines 46-77: the rate limit of [ip], then the remaining checks; [now] is
    the clock read at line 47. *)
Definition check_rate (data : gmap string value) (ip : string) (now : Z)
    (signals : list signal) (submissionCache : gmap string (list Z))
  : spam_check * gmap string (list Z) :=
  match submissionCache !! ip with
  | Some recorded =>
      let timestamps := in_window now recorded in
      if (3 <=? length timestamps)%nat then
        (SpamCheck true "Too many submissions from this IP"
           (signals ++ [Signal "rate_limit_exceeded" 90]), submissionCache)
      else
        (check_patterns data signals,
         <[ip := timestamps ++ [now]]> submissionCache)
  | None =>
      (check_patterns data signals, <[ip := [now]]> submissionCache)
  end.

(** [detectSpam data ip] run on the cache [submissionCache]; [now_timing] and
    [now] are the values of [Date.now()] at lines 37 and 47.  The result is
    the returned object, or what [parseInt] has thrown, and the cache
    afterwards. *)
Definition detectSpam (data : gmap string value) (ip : string)
    (now_timing now : Z) (submissionCache : gmap string (list Z))
  : completion spam_check * gmap string (list Z) :=
  let signals : list signal := [] in
  if honeypot_filled data then
    (Returns (SpamCheck true "Honeypot field was filled"
                (signals ++ [Signal "honeypot_filled" 100])), submissionCache)
  else
    match too_fast data now_timing with
    | Throws thrown => (Throws thrown, submissionCache)
    | Returns true =>
        (Returns (SpamCheck true "Form submitted too quickly"
                    (signals ++ [Signal "too_fast" 80])), submissionCache)
    | Returns false => returned (check_rate data ip now signals submissionCache)
    end.

(** ** Tables, collaborators and the world of one request *)

Record form := Form {
  form_id : string;
  form_name : string;
  is_active : bool;
  notification_email : option string
}.

Record submission := Submission {
  sub_id : string;
  sub_form_id : string;
  payload : gmap string value;
  ip : string;
  user_agent : string;
  is_spam : bool;
  spam_reason : string
}.

Record spam_signal := SpamSignal {
  sig_submission_id : string;
  sig_signal : string;
  sig_score : Z
}.

(** [provider_response]: the provider's [data], or [{ error: ... }]. *)
Inductive provider_response :=
| ProviderData (data : string)
| ProviderError (error : string).

Record email_log := EmailLog {
  log_submission_id : string;
  log_status : string;
  log_provider_response : provider_response
}.

Record database := Database {
  forms : list form;
  submissions : list submission;
  spam_signals : list spam_signal;
  email_logs : list email_log
}.

(** What awaiting a query builder resolves to: [{ data, error: null }] or
    [{ data: null, error }]. *)
Inductive db_result (A : Type) :=
| DbData (data : A)
| DbError (error : string).
#[global] Arguments DbData {A} data.
#[global] Arguments DbError {A} error.

(** What [resend.emails.send] does: resolve to [{ data }], resolve to
    [{ error }], or reject. *)
Inductive send_result :=
| SendData (data : string)
| SendError (message : string)
| SendThrows (thrown : string).

(** What [req.json()] does: resolve to the payload object, or reject.  A
    body that is JSON but not an object is not a [SubmissionData]. *)
Inductive json_result :=
| JsonObject (data : gmap string value)
| JsonThrows (thrown : string).

(** The message handed to [resend.emails.send]; the HTML body is kept as the
    three things the template interpolates. *)
Record email := Email {
  email_from : string;
  email_to : list string;
  email_subject : string;
  html_form_name : string;
  html_fields : gmap string value;
  html_submission_id : string
}.

Inductive log_entry :=
| ConsoleError (label detail : string)
| ConsoleLog (label detail : string).

(** The answers of the collaborators during one request. *)
Record environment := Environment {
  forms_query_error : option string;
  now_timing : Z;
  now_rate : Z;
  submission_insert : db_result string;
  signals_insert : db_result unit;
  email_send : send_result;
  email_log_insert : db_result unit;
  email_log_insert_catch : db_result unit
}.

Record world := World {
  db : database;
  submissionCache : gmap string (list Z);
  console : list log_entry;
  outbox : list email
}.

Record request := Request {
  method : string;
  pathname : string;
  x_forwarded_for : option string;
  x_real_ip : option string;
  user_agent_header : option string;
  json_body : json_result
}.

Inductive response_body :=
| NullBody
| ErrorBody (error : string)
| SuccessBody (message submission_id : string).

(** Every response carries [corsHeaders]; [json] tells whether the
    [Content-Type: application/json] header is added. *)
Record response := Response {
  status : Z;
  json : bool;
  body : response_body
}.

Definition log (e : log_entry) (w : world) : world :=
  World (db w) (submissionCache w) (console w ++ [e]) (outbox w).

Definition set_cache (c : gmap string (list Z)) (w : world) : world :=
  World (db w) c (console w) (outbox w).

Definition hand_to_mailer (m : email) (w : world) : world :=
  World (db w) (submissionCache w) (console w) (outbox w ++ [m]).

Definition insert_submission (r : submission) (w : world) : world :=
  let d := db w in
  World (Database (forms d) (submissions d ++ [r]) (spam_signals d) (email_logs d))
    (submissionCache w) (console w) (outbox w).

Definition insert_spam_signals (rs : list spam_signal) (w : world) : world :=
  let d := db w in
  World (Database (forms d) (submissions d) (spam_signals d ++ rs) (email_logs d))
    (submissionCache w) (console w) (outbox w).

(** [supabase.from('email_logs').insert(row)]: the row is stored when the
    insert succeeds; the result is not inspected by the callers. *)
Definition insert_email_log (res : db_result unit) (r : email_log) (w : world)
  : world :=
  match res with
  | DbData _ =>
      let d := db w in
      World (Database (forms d) (submissions d) (spam_signals d) (email_logs d ++ [r]))
        (submissionCache w) (console w) (outbox w)
  | DbError _ => w
  end.

(** [.from('forms').select('*').eq('id', formId).eq('is_active', true).single()]:
    [single] is an error unless exactly one row is selected. *)
Definition select_active_form (query_error : option string) (table : list form)
    (formId : string) : db_result form :=
  match query_error with
  | Some e => DbError e
  | None =>
      match filter (fun f => form_id f = formId ∧ is_active f = true) table with
      | [f] => DbData f
      | _ => DbError "PGRST116"
      end
  end.

(** [s.split(sep)] for a one-character separator; [cur] is the part read so
    far. *)
Fixpoint split (sep : ascii) (cur : string) (s : string) : list string :=
  match s with
  | EmptyString => [cur]
  | String c s' =>
      if Ascii.eqb c sep then cur :: split sep "" s'
      else split sep (cur +:+ String c "") s'
  end.

(** [a || b] on header values: [null] and the empty string are falsy. *)
Definition or_else (a : option string) (b : string) : string :=
  match a with
  | Some s => if String.eqb s "" then b else s
  | None => b
  end.

(** ** The notification dispatcher *)

Record notification := Notification {
  n_formName : string;
  n_notificationEmail : string;
  n_submissionData : gmap string value;
  n_submissionId : string
}.

(** [sendNotificationEmail]: the world afterwards and, when the returned
    promise rejects, the reason. *)
Definition sendNotificationEmail (formName notificationEmail : string)
    (submissionData : gmap string value) (submissionId : string)
    (env : environment) (w : world) : world * option string :=
  let dataHtml :=
    filter (fun kv => String.prefix "__" kv.1 = false) submissionData in
  let w :=
    hand_to_mailer
      (Email "FormSaaS <onboarding@resend.dev>" [notificationEmail]
         ("New submission for " +:+ formName) formName dataHtml submissionId) w in
  match email_send env with
  | SendData data =>
      let w :=
        insert_email_log (email_log_insert env)
          (EmailLog submissionId "sent" (ProviderData data)) w in
      (log (ConsoleLog "Email sent successfully:" data) w, None)
  | SendError message =>
      let w :=
        insert_email_log (email_log_insert env)
          (EmailLog submissionId "failed" (ProviderError message)) w in
      (log (ConsoleError "Error sending email:" message) w, None)
  | SendThrows error =>
      let w := log (ConsoleError "Error in email notification:" error) w in
      (insert_email_log (email_log_insert_catch env)
         (EmailLog submissionId "failed" (ProviderError error)) w, None)
  end.

(** [sendNotificationEmail(...).catch(error => console.error(...))] *)
Definition background (n : notification) (env : environment) (w : world)
  : world :=
  match sendNotificationEmail (n_formName n) (n_notificationEmail n)
          (n_submissionData n) (n_submissionId n) env w with
  | (w, None) => w
  | (w, Some error) => log (ConsoleError "Background email error:" error) w
  end.

(** ** The request handler *)

Definition json_response (status : Z) (b : response_body) : response :=
  Response status true b.

(** Lines 128-130: the last part of the path; [pathParts] is never empty. *)
Definition formId_of (req : request) : string :=
  let pathParts := split "/" "" (pathname req) in
  default "" (last pathParts).

(** The handler up to its [return]: the response, the world at that point
    and the notification it has started without awaiting it. *)
Definition serve_handler (req : request) (env : environment) (w : world)
  : response * world * option notification :=
  if String.eqb (method req) "OPTIONS" then (Response 200 false NullBody, w, None)
  else
    let formId := formId_of req in
    if String.eqb formId "" then
      (json_response 400 (ErrorBody "Form ID is required"), w, None)
    else
      match select_active_form (forms_query_error env) (forms (db w)) formId with
      | DbError _ =>
          (json_response 404 (ErrorBody "Form not found or inactive"), w, None)
      | DbData form =>
          match json_body req with
          | JsonThrows error =>
              (json_response 500 (ErrorBody "Internal server error"),
               log (ConsoleError "Error processing submission:" error) w, None)
          | JsonObject submissionData =>
              let ip :=
                or_else (x_forwarded_for req) (or_else (x_real_ip req) "unknown") in
              let userAgent := or_else (user_agent_header req) "" in
              let cleanPayload :=
                delete "__timestamp" (delete "__honeypot" submissionData) in
              match
                detectSpam submissionData ip (now_timing env) (now_rate env)
                  (submissionCache w)
              with
              | (Throws error, cache) =>
                  (json_response 500 (ErrorBody "Internal server error"),
                   log (ConsoleError "Error processing submission:" error)
                     (set_cache cache w),
                   None)
              | (Returns spamCheck, cache) =>
                  let w := set_cache cache w in
                  match submission_insert env with
                  | DbError submissionError =>
                      (json_response 500 (ErrorBody "Failed to save submission"),
                       log (ConsoleError "Error inserting submission:"
                              submissionError) w,
                       None)
                  | DbData id =>
                      let w :=
                        insert_submission
                          (Submission id formId cleanPayload ip userAgent
                             (isSpam spamCheck) (reason spamCheck)) w in
                      let w :=
                        if (0 <? length (signals spamCheck))%nat then
                          match signals_insert env with
                          | DbData _ =>
                              insert_spam_signals
                                ((fun s => SpamSignal id (signal_name s) (score s))
                                   <$> signals spamCheck) w
                          | DbError _ => w
                          end
                        else w in
                      let started :=
                        if negb (isSpam spamCheck)
                           && negb (String.eqb
                                      (default "" (notification_email form)) "")
                        then
                          Some (Notification (form_name form)
                                  (default "" (notification_email form))
                                  cleanPayload id)
                        else None in
                      (json_response 200 (SuccessBody "Submission received" id),
                       w, started)
                  end
              end
          end
      end.

(** One request to the end: the handler answers, the notification it started
    runs to completion in the background. *)
Definition serve (req : request) (env : environment) (w : world)
  : response * world :=
  let '(resp, w, started) := serve_handler req env w in
  (resp, from_option (fun n => background n env w) w started).

(** ** Vocabulary of the properties *)

(** What the call of [detectSpam] at line 164 does, and the row stored for
    the verdict [spamCheck]. *)
Definition verdict_of (req : request) (env : environment) (w : world)
    (data : gmap string value)
  : completion spam_check :=
  (detectSpam data
     (or_else (x_forwarded_for req) (or_else (x_real_ip req) "unknown"))
     (now_timing env) (now_rate env) (submissionCache w)).1.

Definition row_of (req : request) (data : gmap string value)
    (spamCheck : spam_check) (id : string) : submission :=
  Submission id (formId_of req)
    (delete "__timestamp" (delete "__honeypot" data))
    (or_else (x_forwarded_for req) (or_else (x_real_ip req) "unknown"))
    (or_else (user_agent_header req) "")
    (isSpam spamCheck) (reason spamCheck).

(** The control path on which the submission insert is reached and
    succeeds: the form is found, the body is read, [detectSpam] returns. *)
Definition accepted (req : request) (env : environment) (w : world)
    (f : form) (data : gmap string value) (spamCheck : spam_check)
    (id : string) : Prop :=
  String.eqb (method req) "OPTIONS" = false
  ∧ String.eqb (formId_of req) "" = false
  ∧ select_active_form (forms_query_error env) (forms (db w)) (formId_of req)
    = DbData f
  ∧ json_body req = JsonObject data
  ∧ verdict_of req env w data = Returns spamCheck
  ∧ submission_insert env = DbData id.

(** The request has stored [row]: it is the one row appended to
    [submissions]. *)
Definition stores (req : request) (env : environment) (w : world)
    (row : submission) : Prop :=
  submissions (db (serve req env w).2) = submissions (db w) ++ [row].

Definition success (id : string) : response :=
  Response 200 true (SuccessBody "Submission received" id).

(** A notification address is configured: [form.notification_email] is
    truthy. *)
Definition configured (f : form) : bool :=
  negb (String.eqb (default "" (notification_email f)) "").

(** The message a dispatch for form [f] hands to the mail provider. *)
Definition notification_mail (f : form) (data : gmap string value)
    (id : string) : email :=
  Email "FormSaaS <onboarding@resend.dev>" [default "" (notification_email f)]
    ("New submission for " +:+ form_name f) (form_name f)
    (filter (fun kv => String.prefix "__" kv.1 = false)
       (delete "__timestamp" (delete "__honeypot" data)))
    id.

(** The one [email_logs] row a dispatch asks the database to insert, and
    whether the database accepts it. *)
Definition requested_email_log (id : string) (env : environment) : email_log :=
  match email_send env with
  | SendData data => EmailLog id "sent" (ProviderData data)
  | SendError message => EmailLog id "failed" (ProviderError message)
  | SendThrows error => EmailLog id "failed" (ProviderError error)
  end.

Definition email_log_accepted (env : environment) : bool :=
  match email_send env with
  | SendThrows _ =>
      match email_log_insert_catch env with DbData _ => true | DbError _ => false end
  | _ =>
      match email_log_insert env with DbData _ => true | DbError _ => false end
  end.

(** What a dispatch writes to the console. *)
Definition dispatch_console (env : environment) : list log_entry :=
  match email_send env with
  | SendData data => [ConsoleLog "Email sent successfully:" data]
  | SendError message => [ConsoleError "Error sending email:" message]
  | SendThrows error => [ConsoleError "Error in email notification:" error]
  end.

End Runtime.

(** ** Sample data

    The safe integers as the number interface, and the payloads, worlds and
    collaborator answers the closed examples below run on. *)

(** An integer strictly between [-2^53] and [2^53]: a Number that JavaScript
    prints with all its digits. *)
Record safe_integer := SafeInteger {
  safe_value : Z;
  safe_range : Is_true ((- 2 ^ 53 <? safe_value) && (safe_value <? 2 ^ 53))
}.

#[export] Instance safe_integers : Numbers safe_integer := {|
  num_truthy n := negb (Z.eqb (safe_value n) 0);
  num_to_string n := pretty (safe_value n)
|}.

Definition seven : safe_integer := SafeInteger 7 I.
Definition zero : safe_integer := SafeInteger 0 I.
Definition one : safe_integer := SafeInteger 1 I.

Definition bob : gmap string (value (num:=safe_integer)) :=
  {[ "name" := VStr "Bob"; "__honeypot" := VStr "";
     "__timestamp" := VStr "1699999995000" ]}.

Definition bot : gmap string (value (num:=safe_integer)) :=
  {[ "__honeypot" := VStr "spam"; "age" := VNum seven ]}.

Definition hasty : gmap string (value (num:=safe_integer)) :=
  {[ "name" := VStr "Eve"; "__timestamp" := VStr "1699999999000" ]}.

Definition plain : gmap string (value (num:=safe_integer)) :=
  {[ "name" := VStr "Ann" ]}.

Definition linky : gmap string (value (num:=safe_integer)) :=
  {[ "msg" := VStr "http://a.io https://b.io http://c.io" ]}.

(** The timestamp is no string but the object [{"toString": 1}]. *)
Definition unconvertible : gmap string (value (num:=safe_integer)) :=
  {[ "name" := VStr "Mal"; "__timestamp" := VObj [("toString", VNum one)] ]}.

Definition sample_now : Z := 1700000000000.

Definition busy_cache : gmap string (list Z) :=
  {[ "1.2.3.4" := [1699990000000; 1699999900000; 1699999950000; 1699999990000] ]}.

Definition calm_cache : gmap string (list Z) :=
  {[ "1.2.3.4" := [1699990000000; 1699999900000; 1699999950000] ]}.

Definition sample_forms : list form :=
  [ Form "f1" "Contact" true (Some "owner@example.org");
    Form "f2" "Retired" false (Some "owner@example.org");
    Form "f3" "Survey" true None ].

Definition sample_world : world (num:=safe_integer) :=
  World (Database sample_forms [] [] []) ∅ [] [].

Definition post (path : string) (data : gmap string (value (num:=safe_integer)))
  : request :=
  Request "POST" path (Some "1.2.3.4") None (Some "curl/8") (JsonObject data).

(** Every collaborator answers well. *)
Definition all_well : environment :=
  Environment None sample_now sample_now (DbData "s1") (DbData ())
    (SendData "{id: e1}") (DbData ()) (DbData ()).

(** The [spam_signals] insert fails. *)
Definition signals_down : environment :=
  Environment None sample_now sample_now (DbData "s1")
    (DbError "relation spam_signals is unavailable")
    (SendData "{id: e1}") (DbData ()) (DbData ()).


(** The mail provider is unreachable: [send] rejects. *)
Definition mailer_down : environment :=
  Environment None sample_now sample_now (DbData "s1") (DbData ())
    (SendThrows "TypeError: fetch failed") (DbData ()) (DbData ()).

Definition intake_path : string := "/functions/v1/submit-form/f1".

(** The rows the sample requests store on form [f1]. *)
Definition bob_row : submission (num:=safe_integer) :=
  Submission "s1" "f1" {[ "name" := VStr "Bob" ]} "1.2.3.4" "curl/8" false "".

Definition bot_row : submission (num:=safe_integer) :=
  Submission "s1" "f1" {[ "age" := VNum seven ]} "1.2.3.4" "curl/8" true
    "Honeypot field was filled".

Definition contact_form : form :=
  Form "f1" "Contact" true (Some "owner@example.org").

(** ** Repeated evaluation *)

Section Repeated.

Context `{Numbers num}.

(** One evaluation: the payload and the two clock readings. *)
Record call := Call {
  call_data : gmap string (value (num:=num));
  call_now_timing : Z;
  call_now : Z
}.

(** [detectSpam] called for the origin [ip] once per element of [calls], each
    call on the cache the one before has left. *)
Fixpoint detectSpam_each (ip : string) (calls : list call)
    (submissionCache : gmap string (list Z))
  : list (completion spam_check) * gmap string (list Z) :=
  match calls with
  | [] => ([], submissionCache)
  | c :: rest =>
      let '(r, cache) :=
        detectSpam (call_data c) ip (call_now_timing c) (call_now c)
          submissionCache in
      let '(rs, cache) := detectSpam_each ip rest cache in
      (r :: rs, cache)
  end.

(** The verdict of the rate check. *)
Definition rate_limited (r : spam_check) : bool :=
  String.eqb (reason r) "Too many submissions from this IP".

(** The number of positions of [s] at which [http://] or [https://]
    starts. *)
Fixpoint url_positions (s : string) : nat :=
  match s with
  | EmptyString => O
  | String _ s' =>
      ((if String.prefix "http://" s || String.prefix "https://" s
        then 1 else 0) + url_positions s')%nat
  end.

(** ** The embed script

    The submit listener of the generated embed code: the form's entries
    (strings, the hidden [__honeypot] and [__timestamp] inputs among them)
    with [__timestamp] overwritten by [Date.now().toString()], posted to
    [${supabaseUrl}/functions/v1/submit-form/${id}].  [clock] is the reading
    of the submitter's clock. *)
Definition embed_data (entries : gmap string string) (clock : Z)
  : gmap string (value (num:=num)) :=
  <["__timestamp" := VStr (pretty clock)]> (VStr <$> entries).

Definition embed_path (supabasePath id : string) : string :=
  supabasePath +:+ "/functions/v1/submit-form/" +:+ id.

(** Every signal row and every email-log row refers to a stored
    submission. *)
Definition references_resolve (d : database (num:=num)) : Prop :=
  (∀ s, s ∈ spam_signals d ->
        ∃ r, r ∈ submissions d ∧ sub_id r = sig_submission_id s)
  ∧ (∀ l, l ∈ email_logs d ->
          ∃ r, r ∈ submissions d ∧ sub_id r = log_submission_id l).

End Repeated.

(** ** The request limiter of [src/middleware/rate-limit.ts] *)

Module RateLimit.

Definition RATE_LIMIT_windowMs : Z := 15 * 60 * 1000.
Definition RATE_LIMIT_max : Z := 100.

(** The value kept per origin in [rateLimits]. *)
Record entry := Entry { count : Z; resetTime : Z }.

(** What [rateLimit] returns instead of [null]. *)
Record rejection := Rejection { error : string; status : Z; retryAfter : Z }.

(** [Math.ceil(a / b)] for integers [a] and a positive integer [b]. *)
Definition ceil_div (a b : Z) : Z := - (- a / b).

(** [rateLimit ip] at clock reading [now]: the result ([None] is [null]) and
    the map afterwards.  The entry object is updated in place, so the map
    sees every assignment to it. *)
Definition rateLimit (ip : string) (now : Z) (rateLimits : gmap string entry)
  : option rejection * gmap string entry :=
  match rateLimits !! ip with
  | None =>
      (None, <[ip := Entry 1 (now + RATE_LIMIT_windowMs)]> rateLimits)
  | Some rateLimit =>
      if resetTime rateLimit <? now then
        (None, <[ip := Entry 1 (now + RATE_LIMIT_windowMs)]> rateLimits)
      else
        let rateLimit := Entry (count rateLimit + 1) (resetTime rateLimit) in
        let rateLimits := <[ip := rateLimit]> rateLimits in
        if RATE_LIMIT_max <? count rateLimit then
          (Some (Rejection "Too many requests" 429
                   (ceil_div (resetTime rateLimit - now) 1000)),
           rateLimits)
        else (None, rateLimits)
  end.

(** The hourly sweep (lines 42-49) at clock reading [now]. *)
Definition cleanup (now : Z) (rateLimits : gmap string entry)
  : gmap string entry :=
  filter (fun kv => ¬ (resetTime kv.2 + RATE_LIMIT_windowMs < now)) rateLimits.

(** [rateLimit ip] called once per clock reading of [times], each call on the
    map the one before has left. *)
Fixpoint rateLimit_each (ip : string) (times : list Z)
    (rateLimits : gmap string entry)
  : list (option rejection) * gmap string entry :=
  match times with
  | [] => ([], rateLimits)
  | now :: rest =>
      let '(r, rateLimits) := rateLimit ip now rateLimits in
      let '(rs, rateLimits) := rateLimit_each ip rest rateLimits in
      (r :: rs, rateLimits)
  end.

End RateLimit.

(** ** The route wrappers of [src/lib/api-utils.ts] and [src/lib/auth-utils.ts] *)

Module Api.

(** What [supabase.auth.getUser()] does: resolve to a user, to no user, to
    an error, or reject. *)
Inductive auth_result :=
| AuthUser (user : string)
| AuthNoUser
| AuthError (message : string)
| AuthThrows (thrown : string).

Section Wrappers.

Context `{Numbers num}.

Inductive body :=
| RateLimited (error : string) (retryAfter : Z)
| Unauthorized
| Success (data : gmap string (value (num:=num)))
| Failure (error : string).

(** Every response is JSON; [retry_after] is the [Retry-After] header. *)
Record response := Response {
  status : Z;
  retry_after : option string;
  body_of : body
}.

Record state := State {
  rateLimits : gmap string RateLimit.entry;
  console_of : list log_entry
}.

Definition Handler : Type := request (num:=num) -> state -> response * state.

(** [getCurrentUser]: the returned user ([None] is [null]) or the thrown
    value, and the console afterwards. *)
Definition getCurrentUser (auth : auth_result) (console : list log_entry)
  : (option string + string) * list log_entry :=
  match auth with
  | AuthUser user => (inl (Some user), console)
  | AuthNoUser => (inl None, console)
  | AuthError message =>
      (inl None, console ++ [ConsoleError "Error getting user:" message])
  | AuthThrows thrown => (inr thrown, console)
  end.

(** [requireAuth]: the user, or the thrown value. *)
Definition requireAuth (auth : auth_result) (console : list log_entry)
  : (string + string) * list log_entry :=
  match getCurrentUser auth console with
  | (inl (Some user), console) => (inl user, console)
  | (inl None, console) => (inr "Not authenticated", console)
  | (inr thrown, console) => (inr thrown, console)
  end.

Definition withAuth (auth : auth_result) (handler : Handler) : Handler :=
  fun req st =>
    match requireAuth auth (console_of st) with
    | (inl _, console) => handler req (State (rateLimits st) console)
    | (inr _, console) =>
        (Response 401 None Unauthorized, State (rateLimits st) console)
    end.

Definition withRateLimit (now : Z) (handler : Handler) : Handler :=
  fun req st =>
    let ip := or_else (x_forwarded_for req) "127.0.0.1" in
    match RateLimit.rateLimit ip now (rateLimits st) with
    | (Some rateLimitResult, limits) =>
        (Response (RateLimit.status rateLimitResult)
           (Some (pretty (RateLimit.retryAfter rateLimitResult)))
           (RateLimited (RateLimit.error rateLimitResult)
              (RateLimit.retryAfter rateLimitResult)),
         State limits (console_of st))
    | (None, limits) => handler req (State limits (console_of st))
    end.

(** The route of lines 51-67: the handler wrapped by [withAuth], then by
    [withRateLimit].  The handler echoes the body, taken to be a JSON object
    as in [json_result], or answers 500 with the message of what [req.json()]
    has thrown. *)
Definition route_handler : Handler :=
  fun req st =>
    match json_body req with
    | JsonObject data => (Response 200 None (Success data), st)
    | JsonThrows error => (Response 500 None (Failure error), st)
    end.

Definition POST (auth : auth_result) (now : Z) : Handler :=
  withRateLimit now (withAuth auth route_handler).

(** One call of the route: what [getUser] answers, the clock, the request. *)
Record route_call := RouteCall {
  rc_auth : auth_result;
  rc_now : Z;
  rc_req : request (num:=num)
}.

Fixpoint POST_each (calls : list route_call) (st : state)
  : list response * state :=
  match calls with
  | [] => ([], st)
  | c :: rest =>
      let '(r, st) := POST (rc_auth c) (rc_now c) (rc_req c) st in
      let '(rs, st) := POST_each rest st in
      (r :: rs, st)
  end.

End Wrappers.

End Api.

(** ** The form reader of [supabase/functions/get-form/index.ts] *)

Module GetForm.

Section GetForm.

Context `{Numbers num}.

(** A row of [forms] with the columns the reader selects besides those of
    [form]. *)
Record form_row := FormRow {
  columns : form;
  definition : value (num:=num);
  owner_id : string
}.

(** Row-level security is enabled on [forms], and its one SELECT policy is
    [auth.uid() = owner_id]: a query returns the rows its caller owns.  [uid]
    is [auth.uid()], [None] (NULL) for a caller without a session, for whom
    the comparison is true of no row. *)
Definition forms_select_policy (uid : option string) (r : form_row) : Prop :=
  uid = Some (owner_id r).

#[global] Instance forms_select_policy_dec uid r :
  Decision (forms_select_policy uid r) :=
  decide (uid = Some (owner_id r)).

(** [select('id, name, definition, is_active')] *)
Record selected := Selected {
  sel_id : string;
  sel_name : string;
  sel_definition : value (num:=num);
  sel_is_active : bool
}.

Inductive body :=
| NullBody
| ErrorBody (error : string)
| FormBody (form : selected).

Record response := Response { status : Z; json : bool; body_of : body }.

(** [.select(...).eq('id', formId).eq('is_active', true).single()], asked by
    the caller [uid]. *)
Definition select_active (query_error : option string) (uid : option string)
    (table : list form_row) (formId : string) : db_result selected :=
  match query_error with
  | Some e => DbError e
  | None =>
      match filter (fun r => forms_select_policy uid r
                             ∧ form_id (columns r) = formId
                             ∧ is_active (columns r) = true) table with
      | [r] =>
          DbData (Selected (form_id (columns r)) (form_name (columns r))
                    (definition r) (is_active (columns r)))
      | _ => DbError "PGRST116"
      end
  end.

(** The handler.  Its client is created from the publishable key alone
    (line 12) and signs nobody in: it queries as the caller without a
    session. *)
Definition serve (req : request (num:=num)) (query_error : option string)
    (table : list form_row) : response :=
  if String.eqb (method req) "OPTIONS" then Response 200 false NullBody
  else
    let formId := formId_of req in
    if String.eqb formId "" then
      Response 400 true (ErrorBody "Form ID is required")
    else
      match select_active query_error None table formId with
      | DbError _ => Response 404 true (ErrorBody "Form not found")
      | DbData form => Response 200 true (FormBody form)
      end.

End GetForm.

End GetForm.

(** ** [generateShortId] of [src/pages/Dashboard.tsx] *)

(** [uuid.split('-')[0]]; [split] never returns an empty array. *)
Definition generateShortId (uuid : string) : string :=
  default "" (head (split "-" "" uuid)).

(** ** The field list of [src/pages/FormBuilder.tsx] *)

Module FormBuilder.

Section Builder.

(** The field records are opaque here. *)
Context {FormField : Type}.

(** The two pieces of component state the field operations touch. *)
Record state := State {
  fields : list FormField;
  selectedFieldIndex : option nat
}.

(** [l.filter((_, i) => keep(i))], [i] being the index of the head. *)
Fixpoint filter_index (keep : nat -> bool) (i : nat) (l : list FormField)
  : list FormField :=
  match l with
  | [] => []
  | x :: l' =>
      if keep i then x :: filter_index keep (S i) l'
      else filter_index keep (S i) l'
  end.

(** [addField], lines 197-232; [newField] is the record the [switch] has
    built for the chosen type. *)
Definition addField (newField : FormField) (st : state) : state :=
  State (fields st ++ [newField]) (Some (length (fields st))).

(** [deleteField], lines 240-244. *)
Definition deleteField (index : nat) (st : state) : state :=
  let updatedFields :=
    filter_index (fun i => negb (Nat.eqb i index)) 0 (fields st) in
  State updatedFields
    (if decide (selectedFieldIndex st = Some index) then None
     else selectedFieldIndex st).

(** The field [renderFieldEditor] edits, lines 247-249: none when nothing is
    selected or the selected index has no field. *)
Definition editedField (st : state) : option FormField :=
  selectedFieldIndex st ≫= fun i => fields st !! i.

End Builder.

End FormBuilder.

(** ** More sample data *)

(** A burst of four legitimate submissions, one second apart. *)
Definition burst : list (call (num:=safe_integer)) :=
  [ Call plain sample_now sample_now;
    Call plain (sample_now + 1000) (sample_now + 1000);
    Call linky (sample_now + 2000) (sample_now + 2000);
    Call plain (sample_now + 3000) (sample_now + 3000) ].

(** What a visitor's browser collects from the embedded form. *)
Definition visitor_entries : gmap string string :=
  {[ "name" := "Bob"; "__honeypot" := ""; "__timestamp" := "" ]}.

(** The submission insert fails. *)
Definition submissions_down : environment :=
  Environment None sample_now sample_now
    (DbError "relation submissions is unavailable") (DbData ())
    (SendData "{id: e1}") (DbData ()) (DbData ()).

(** An origin one call short of a rejection, 500 ms before its window ends. *)
Definition nearly_full : gmap string RateLimit.entry :=
  {[ "1.2.3.4" := RateLimit.Entry 100 (sample_now + 500) ]}.

Definition no_calls_yet : Api.state := Api.State ∅ [].

Definition signed_in : Api.route_call (num:=safe_integer) :=
  Api.RouteCall (Api.AuthUser "u1") sample_now (post "/api/route" plain).

Definition anonymous : Api.route_call (num:=safe_integer) :=
  Api.RouteCall Api.AuthNoUser sample_now (post "/api/route" plain).

Definition sample_table : list (GetForm.form_row (num:=safe_integer)) :=
  [ GetForm.FormRow (Form "f1" "Contact" true (Some "owner@example.org"))
      (VArr []) "o1";
    GetForm.FormRow (Form "f2" "Retired" false (Some "owner@example.org"))
      (VArr []) "o1";
    GetForm.FormRow (Form "f3" "Survey" true None) (VArr []) "o2" ].

(** ** Properties of the spam evaluator *)

Section SpamEvaluator.

Context `{Numbers num}.
Implicit Types (data : gmap string (value (num:=num))) (ip : string).
Implicit Types (cache : gmap string (list Z)) (v : value (num:=num)).

Lemma truthy_string s : truthy (Some (VStr s)) = true <-> s ≠ "".
Proof.
  simpl. destruct (String.eqb_spec s ""); simpl; split; congruence.
Qed.

Lemma honeypot_filled_truthy data :
  honeypot_filled data = truthy (data !! "__honeypot").
Proof.
  unfold honeypot_filled.
  destruct (data !! "__honeypot") as [[]|]; simpl;
    rewrite ?andb_true_r, ?andb_diag; reflexivity.
Qed.

(** A truthy honeypot value of any type ends the evaluation. *)
Lemma honeypot_truthy_decides data ip now_t now cache :
  truthy (data !! "__honeypot") = true ->
  detectSpam data ip now_t now cache =
    (Returns (SpamCheck true "Honeypot field was filled"
                [Signal "honeypot_filled" 100]),
     cache).
Proof.
  intros Hv. unfold detectSpam. now rewrite honeypot_filled_truthy, Hv.
Qed.

Lemma parseInt_string_empty : parseInt_string "" = None.
Proof. reflexivity. Qed.

Lemma too_fast_absent data now_t :
  data !! "__timestamp" = None -> too_fast data now_t = Returns false.
Proof. unfold too_fast. now intros ->. Qed.

Lemma too_fast_elapsed data now_t v t :
  data !! "__timestamp" = Some v -> truthy (Some v) = true ->
  parseInt v = Returns (Some t) ->
  too_fast data now_t = Returns (bool_decide (now_t - t < 2000)).
Proof.
  intros Hv Ht Hp. unfold too_fast. rewrite Hv, Ht, Hp. f_equal.
  destruct (Z.ltb_spec (now_t - t) 2000);
    [rewrite bool_decide_eq_true_2 | rewrite bool_decide_eq_false_2]; auto; lia.
Qed.

(** A timestamp that is an object with an own property [toString] cannot be
    converted: [parseInt] throws, and so does the evaluation unless the
    honeypot check has ended it before; the history is left alone. *)
Lemma too_fast_throws data now_t (l : list (string * value (num:=num))) :
  data !! "__timestamp" = Some (VObj l) -> has_own "toString" l = true ->
  too_fast data now_t = Throws type_error.
Proof.
  intros Hv Hown. unfold too_fast, parseInt. rewrite Hv.
  cbn [truthy to_string]. now rewrite Hown.
Qed.

Lemma detectSpam_throws data ip now_t now cache thrown :
  honeypot_filled data = false -> too_fast data now_t = Throws thrown ->
  detectSpam data ip now_t now cache = (Throws thrown, cache).
Proof. intros Hh Ht. unfold detectSpam. now rewrite Hh, Ht. Qed.

(** The evaluation throws only out of the timing check. *)
Lemma detectSpam_thrown data ip now_t now cache thrown :
  (detectSpam data ip now_t now cache).1 = Throws thrown ->
  honeypot_filled data = false ∧ too_fast data now_t = Throws thrown.
Proof.
  unfold detectSpam. destruct (honeypot_filled data); [discriminate|].
  destruct (too_fast data now_t) as [[|]|e]; try discriminate.
  cbn. now intros [= ->].
Qed.

Lemma in_window_spec now (l : list Z) ts :
  ts ∈ in_window now l <-> now - 300000 < ts ∧ ts ∈ l.
Proof. unfold in_window. now rewrite list_elem_of_filter. Qed.

(** The timestamps kept at line 51 are those less than five minutes old. *)
Lemma in_window_age now (l : list Z) :
  in_window now l = filter (fun ts => now - ts < 300000) l.
Proof. unfold in_window. apply list_filter_iff. intros ts. lia. Qed.

Lemma in_window_none cache ip now :
  cache !! ip = None -> in_window now (default [] (cache !! ip)) = [].
Proof. now intros ->. Qed.

Lemma check_rate_exceeded data ip now sigs cache :
  (3 <= length (in_window now (default [] (cache !! ip))))%nat ->
  check_rate data ip now sigs cache =
    (SpamCheck true "Too many submissions from this IP"
       (sigs ++ [Signal "rate_limit_exceeded" 90]), cache).
Proof.
  intros Hl. unfold check_rate. destruct (cache !! ip) as [l|]; simpl in Hl.
  - apply Nat.leb_le in Hl. now rewrite Hl.
  - lia.
Qed.

Lemma check_rate_allowed data ip now sigs cache :
  (length (in_window now (default [] (cache !! ip))) <= 2)%nat ->
  check_rate data ip now sigs cache =
    (check_patterns data sigs,
     <[ip := in_window now (default [] (cache !! ip)) ++ [now]]> cache).
Proof.
  intros Hl. unfold check_rate. destruct (cache !! ip) as [l|]; simpl in Hl.
  - assert (Hb : (3 <=? length (in_window now l))%nat = false)
      by (apply Nat.leb_gt; lia).
    now rewrite Hb.
  - reflexivity.
Qed.

(** With the first two checks passed the evaluation is the rate check and
    what follows it. *)
Lemma detectSpam_passed data ip now_t now cache :
  honeypot_filled data = false -> too_fast data now_t = Returns false ->
  detectSpam data ip now_t now cache = returned (check_rate data ip now [] cache).
Proof. intros Hh Ht. unfold detectSpam. now rewrite Hh, Ht. Qed.

Lemma totalScore_from (sigs : list signal) (a : Z) :
  fold_left (fun sum s => sum + score s) sigs a = a + totalScore sigs.
Proof.
  unfold totalScore. revert a.
  induction sigs as [|s sigs IH]; intros a; cbn [fold_left]; [lia|].
  rewrite (IH (a + score s)), (IH (0 + score s)). lia.
Qed.

Lemma totalScore_cons s (sigs : list signal) :
  totalScore (s :: sigs) = score s + totalScore sigs.
Proof. unfold totalScore at 1. cbn [fold_left]. apply totalScore_from. Qed.

Lemma totalScore_app (l1 l2 : list signal) :
  totalScore (l1 ++ l2) = totalScore l1 + totalScore l2.
Proof.
  induction l1 as [|s l1 IH]; simpl; [reflexivity|].
  rewrite !totalScore_cons, IH. lia.
Qed.

(** The reduction of line 70 adds up the scores. *)
Lemma totalScore_sum (sigs : list signal) :
  totalScore sigs = foldr Z.add 0 (score <$> sigs).
Proof.
  induction sigs as [|s sigs IH]; [reflexivity|].
  rewrite totalScore_cons, IH. reflexivity.
Qed.

Lemma score_signals_sum (sigs : list signal) :
  score_signals sigs =
    if bool_decide (70 <= foldr Z.add 0 (score <$> sigs))
    then SpamCheck true "Spam score threshold exceeded" sigs
    else SpamCheck false "" sigs.
Proof.
  unfold score_signals. rewrite <- totalScore_sum.
  destruct (Z.leb_spec 70 (totalScore sigs));
    [rewrite bool_decide_eq_true_2 | rewrite bool_decide_eq_false_2];
    auto; lia.
Qed.

Lemma hasMultipleUrls_spec data :
  hasMultipleUrls data = true <->
  ∃ k s, data !! k = Some (VStr s) ∧ (2 < count_url_matches 0 s)%nat.
Proof.
  unfold hasMultipleUrls. rewrite existsb_exists. split.
  - intros (v & Hin & Hc). apply filter_In in Hin as [Hin Hs].
    destruct v as [| | |s| |]; try discriminate.
    apply list_elem_of_In, list_elem_of_fmap in Hin as ([k v] & Hv & Hkv).
    simpl in Hv. subst v. apply elem_of_map_to_list in Hkv.
    exists k, s. split; [done|]. now apply Nat.ltb_lt.
  - intros (k & s & Hk & Hc). exists (VStr s). split.
    + apply filter_In. split; [|done].
      apply list_elem_of_In, list_elem_of_fmap. exists (k, VStr s).
      split; [done|]. now apply elem_of_map_to_list.
    + now apply Nat.ltb_lt.
Qed.

Lemma check_patterns_signals data :
  signals (check_patterns data []) =
    if hasMultipleUrls data then [Signal "multiple_urls" 60] else [].
Proof. unfold check_patterns. now destruct (hasMultipleUrls data). Qed.

Lemma check_patterns_legitimate data :
  isSpam (check_patterns data []) = false ∧ reason (check_patterns data []) = "".
Proof. unfold check_patterns. now destruct (hasMultipleUrls data). Qed.

Lemma check_rate_signal_names data ip now cache sg :
  sg ∈ signals (check_rate data ip now [] cache).1 ->
  sg = Signal "rate_limit_exceeded" 90 ∨ sg = Signal "multiple_urls" 60.
Proof.
  destruct (Nat.le_gt_cases 3 (length (in_window now (default [] (cache !! ip)))))
    as [Hn|Hn].
  - rewrite check_rate_exceeded by done. cbn [fst signals app].
    rewrite list_elem_of_singleton. auto.
  - rewrite check_rate_allowed by lia. cbn [fst]. rewrite check_patterns_signals.
    destruct (hasMultipleUrls data); intros Hin.
    + apply list_elem_of_singleton in Hin. auto.
    + now apply elem_of_nil in Hin.
Qed.

(** C1. Whenever the payload's honeypot field is a non-empty string,
    [detectSpam] returns [isSpam = true] with reason "Honeypot field was
    filled" and the signal list [[{honeypot_filled, 100}]], whatever the other
    fields, the origin, the clock and the history are; no other signal is
    recorded and the per-origin history is returned unchanged. *)
Theorem detectSpam_honeypot data ip now_t now cache s :
  data !! "__honeypot" = Some (VStr s) -> s ≠ "" ->
  detectSpam data ip now_t now cache =
    (Returns (SpamCheck true "Honeypot field was filled"
                [Signal "honeypot_filled" 100]),
     cache).
Proof.
  intros Hs Hne. apply honeypot_truthy_decides.
  rewrite Hs. now apply truthy_string.
Qed.

(** C2. With no filled honeypot: if the payload carries a timestamp string
    that [parseInt] reads as [t] and less than 2 seconds (2000 ms) lie between
    [t] and the clock, [detectSpam] returns [isSpam = true] with reason "Form
    submitted too quickly" and signals [[{too_fast, 80}]], the history
    unchanged; if the timestamp field is absent the timing check is skipped:
    the evaluation returns, without an error, the result of the rate check
    and the checks after it, and no [too_fast] signal is recorded. *)
Theorem detectSpam_timing data ip now_t now cache :
  honeypot_filled data = false ->
  (∀ s t, data !! "__timestamp" = Some (VStr s) -> parseInt_string s = Some t ->
          now_t - t < 2000 ->
          detectSpam data ip now_t now cache =
            (Returns (SpamCheck true "Form submitted too quickly"
                        [Signal "too_fast" 80]),
             cache))
  ∧ (data !! "__timestamp" = None ->
     detectSpam data ip now_t now cache
       = returned (check_rate data ip now [] cache)
     ∧ ∀ r sg, (detectSpam data ip now_t now cache).1 = Returns r ->
               sg ∈ signals r -> signal_name sg ≠ "too_fast").
Proof.
  intros Hh. split.
  - intros s t Hs Hp Hlt. unfold detectSpam. rewrite Hh.
    assert (Hne : s ≠ "") by (intros ->; discriminate).
    rewrite (too_fast_elapsed data now_t (VStr s) t Hs).
    + now rewrite bool_decide_eq_true_2.
    + now apply truthy_string.
    + unfold parseInt. cbn [to_string]. now rewrite Hp.
  - intros Hs.
    assert (Heq : detectSpam data ip now_t now cache
                  = returned (check_rate data ip now [] cache))
      by (apply detectSpam_passed; [done | now apply too_fast_absent]).
    split; [done|]. rewrite Heq. intros r sg [= <-] Hsg.
    apply check_rate_signal_names in Hsg as [-> | ->]; discriminate.
Qed.

(** C3. With the honeypot and timing checks passed (the timing check has
    returned without firing), let [recent] be the timestamps recorded for the
    origin that are less than five minutes (300000 ms) old at the clock
    reading; a timestamp exactly five minutes old is dropped.  If [recent]
    has at least 3 entries, [detectSpam] returns [isSpam = true] with reason
    "Too many submissions from this IP" and signals
    [[{rate_limit_exceeded, 90}]] and the history is left as it was, the
    current time not appended.  If [recent] has at most 2 entries, the rate
    check does not fire (the verdict is that of the pattern check, which
    records no rate signal and does not give the rate reason) and the
    origin's history becomes [recent] followed by exactly the current
    time. *)
Theorem detectSpam_rate data ip now_t now cache :
  honeypot_filled data = false -> too_fast data now_t = Returns false ->
  let recent :=
    filter (fun ts => now - ts < 300000) (default [] (cache !! ip)) in
  ((3 <= length recent)%nat ->
   detectSpam data ip now_t now cache =
     (Returns (SpamCheck true "Too many submissions from this IP"
                 [Signal "rate_limit_exceeded" 90]),
      cache))
  ∧ ((length recent <= 2)%nat ->
     detectSpam data ip now_t now cache =
       (Returns (check_patterns data []), <[ip := recent ++ [now]]> cache)
     ∧ (detectSpam data ip now_t now cache).2 !! ip = Some (recent ++ [now])
     ∧ (Signal "rate_limit_exceeded" 90 ∉ signals (check_patterns data []))
     ∧ reason (check_patterns data []) ≠ "Too many submissions from this IP").
Proof.
  intros Hh Ht recent. rewrite detectSpam_passed by done.
  unfold recent. rewrite <- in_window_age. split; intros Hn.
  - now rewrite check_rate_exceeded.
  - rewrite check_rate_allowed by done. cbn [returned fst snd].
    split; [done|]. split; [apply lookup_insert_eq|].
    rewrite check_patterns_signals, (proj2 (check_patterns_legitimate data)).
    split; [|discriminate].
    destruct (hasMultipleUrls data).
    + rewrite list_elem_of_singleton. discriminate.
    + apply not_elem_of_nil.
Qed.

(** C4. For a payload that passes the honeypot, timing and rate checks,
    [detectSpam] returns a result [r] in which the signal
    [{multiple_urls, 60}] is recorded exactly when some string-valued field
    has more than 2 matches of [http://] or [https://]; [r] is spam exactly
    when the scores recorded in it add up to at least 70, with reason "Spam
    score threshold exceeded" when it is spam and the empty reason
    otherwise.  The scoring step of lines 70-77 does this for every signal
    list: the verdict is spam with that reason exactly when the scores add up
    to at least 70; so [multiple_urls] alone (60 < 70) is not spam, and
    [multiple_urls] together with further signals adding up to at least 10 is
    spam.  The sums are those of the scores themselves, [foldr Z.add 0]. *)
Theorem detectSpam_scoring data ip now_t now cache :
  honeypot_filled data = false -> too_fast data now_t = Returns false ->
  (length (filter (fun ts => (now - ts < 300000)%Z) (default [] (cache !! ip)))
   <= 2)%nat ->
  (∃ r,
     (detectSpam data ip now_t now cache).1 = Returns r
     ∧ (Signal "multiple_urls" 60 ∈ signals r <->
        ∃ k s, data !! k = Some (VStr s) ∧ (2 < count_url_matches 0 s)%nat)
     ∧ (isSpam r = true <-> 70 <= foldr Z.add 0 (score <$> signals r))
     ∧ reason r = (if isSpam r then "Spam score threshold exceeded" else ""))
  ∧ (∀ sigs : list signal,
       signals (score_signals sigs) = sigs
       ∧ (isSpam (score_signals sigs) = true
          <-> 70 <= foldr Z.add 0 (score <$> sigs))
       ∧ reason (score_signals sigs) =
           (if isSpam (score_signals sigs)
            then "Spam score threshold exceeded" else ""))
  ∧ score_signals [Signal "multiple_urls" 60] =
      SpamCheck false "" [Signal "multiple_urls" 60]
  ∧ ∀ before after : list signal,
      10 <= foldr Z.add 0 (score <$> before ++ after) ->
      score_signals (before ++ Signal "multiple_urls" 60 :: after) =
        SpamCheck true "Spam score threshold exceeded"
          (before ++ Signal "multiple_urls" 60 :: after).
Proof.
  intros Hh Ht Hn.
  assert (Hstep : ∀ sigs : list signal,
            signals (score_signals sigs) = sigs
            ∧ (isSpam (score_signals sigs) = true
               <-> 70 <= foldr Z.add 0 (score <$> sigs))
            ∧ reason (score_signals sigs) =
                (if isSpam (score_signals sigs)
                 then "Spam score threshold exceeded" else "")).
  { intros sigs. rewrite score_signals_sum.
    destruct (decide (70 <= foldr Z.add 0 (score <$> sigs))) as [Hge|Hlt].
    - rewrite bool_decide_eq_true_2 by done. now cbn.
    - rewrite bool_decide_eq_false_2 by done. cbn. split_and!; try done.
      all: split; [discriminate | intros; lia]. }
  split_and!.
  - exists (check_patterns data []). split.
    { rewrite detectSpam_passed by done.
      rewrite check_rate_allowed by now rewrite in_window_age. reflexivity. }
    split.
    { rewrite check_patterns_signals. split.
      - intros Hin. apply hasMultipleUrls_spec.
        destruct (hasMultipleUrls data); [done | now apply elem_of_nil in Hin].
      - intros Hex. apply hasMultipleUrls_spec in Hex.
        rewrite Hex. now apply list_elem_of_singleton. }
    unfold check_patterns. destruct (Hstep
      ([] ++ (if hasMultipleUrls data then [Signal "multiple_urls" 60] else [])))
      as (Hs & Hi & Hr).
    split; [|exact Hr]. rewrite <- Hs at 2. exact Hi.
  - exact Hstep.
  - reflexivity.
  - intros before after Hsum. rewrite score_signals_sum.
    rewrite bool_decide_eq_true_2; [reflexivity|].
    rewrite <- totalScore_sum in *. rewrite totalScore_app in *.
    rewrite totalScore_cons. cbn [score]. lia.
Qed.

(** C5. On the accumulative path the only signal [detectSpam] can record is
    [{multiple_urls, 60}], which stays below the threshold of 70: whenever
    the honeypot, timing and rate checks pass, [detectSpam] returns
    [isSpam = false] with the empty reason; and for no input at all is a
    result with the reason "Spam score threshold exceeded" returned. *)
Theorem detectSpam_threshold_unreachable data ip now_t now cache :
  (∀ r, (detectSpam data ip now_t now cache).1 = Returns r ->
        reason r ≠ "Spam score threshold exceeded")
  ∧ (honeypot_filled data = false -> too_fast data now_t = Returns false ->
     (length (filter (fun ts => (now - ts < 300000)%Z)
                (default [] (cache !! ip))) <= 2)%nat ->
     ∃ r, (detectSpam data ip now_t now cache).1 = Returns r
          ∧ isSpam r = false ∧ reason r = ""
          ∧ (signals r = [] ∨ signals r = [Signal "multiple_urls" 60])
          ∧ foldr Z.add 0 (score <$> signals r) < 70).
Proof.
  split.
  - intros r. unfold detectSpam.
    destruct (honeypot_filled data); [now intros [= <-]|].
    destruct (too_fast data now_t) as [[|]|e];
      [now intros [= <-] | | discriminate].
    destruct (Nat.le_gt_cases 3
                (length (in_window now (default [] (cache !! ip))))) as [Hn|Hn].
    + rewrite check_rate_exceeded by done. now intros [= <-].
    + rewrite check_rate_allowed by lia. cbn [returned fst]. intros [= <-].
      now rewrite (proj2 (check_patterns_legitimate data)).
  - intros Hh Ht Hn. exists (check_patterns data []). split.
    { rewrite detectSpam_passed by done.
      rewrite check_rate_allowed by now rewrite in_window_age. reflexivity. }
    destruct (check_patterns_legitimate data) as [-> ->].
    rewrite check_patterns_signals.
    destruct (hasMultipleUrls data); cbn; split_and!; auto; lia.
Qed.

End SpamEvaluator.

(** ** Properties of the intake handler *)

Section Intake.

Context `{Numbers num}.
Implicit Types (req : request (num:=num)) (env : environment).
Implicit Types (w : world (num:=num)) (row : submission (num:=num)).
Implicit Types (n : notification (num:=num)) (f : form).

(** *** The dispatcher *)


Ltac dispatch_cases env :=
  unfold background, sendNotificationEmail, requested_email_log,
    email_log_accepted, dispatch_console, insert_email_log;
  destruct (email_send env), (email_log_insert env),
    (email_log_insert_catch env); reflexivity.

Lemma background_submissions n env w :
  submissions (db (background n env w)) = submissions (db w).
Proof. dispatch_cases env. Qed.

Lemma background_spam_signals n env w :
  spam_signals (db (background n env w)) = spam_signals (db w).
Proof. dispatch_cases env. Qed.

Lemma background_outbox n env w :
  outbox (background n env w) =
    outbox w ++
      [Email "FormSaaS <onboarding@resend.dev>" [n_notificationEmail n]
         ("New submission for " +:+ n_formName n) (n_formName n)
         (filter (fun kv => String.prefix "__" kv.1 = false) (n_submissionData n))
         (n_submissionId n)].
Proof. dispatch_cases env. Qed.

Lemma background_email_logs n env w :
  email_logs (db (background n env w)) =
    email_logs (db w) ++
      (if email_log_accepted env
       then [requested_email_log (n_submissionId n) env] else []).
Proof.
  unfold background, sendNotificationEmail, requested_email_log,
    email_log_accepted, dispatch_console, insert_email_log;
  destruct (email_send env), (email_log_insert env),
    (email_log_insert_catch env); cbn; now rewrite ?app_nil_r.
Qed.

Lemma background_console n env w :
  console (background n env w) = console w ++ dispatch_console env.
Proof. dispatch_cases env. Qed.

(** *** The handler, branch by branch *)

Lemma app_singleton_neq {A} (l : list A) (x : A) : l ≠ l ++ [x].
Proof.
  intros Heq. apply (f_equal length) in Heq.
  rewrite length_app in Heq. simpl in Heq. lia.
Qed.

Lemma serve_handler_accepted req env w f data sc id :
  accepted req env w f data sc id ->
  ∃ w',
    serve_handler req env w =
      (success id, w',
       if negb (isSpam sc) && configured f
       then Some (Notification (form_name f) (default "" (notification_email f))
                    (delete "__timestamp" (delete "__honeypot" data)) id)
       else None)
    ∧ submissions (db w') = submissions (db w) ++ [row_of req data sc id]
    ∧ email_logs (db w') = email_logs (db w)
    ∧ outbox w' = outbox w
    ∧ console w' = console w.
Proof.
  intros (Hm & Hid & Hf & Hb & Hv & Hi).
  unfold serve_handler, row_of. unfold verdict_of in Hv.
  rewrite Hm, Hid, Hf, Hb.
  destruct (detectSpam data _ (now_timing env) (now_rate env) (submissionCache w))
    as [r cache] eqn:Hsc.
  cbn [fst] in Hv. subst r.
  rewrite Hi. eexists. split; [reflexivity|].
  destruct (0 <? length (signals sc))%nat, (signals_insert env); now cbn.
Qed.

Lemma serve_accepted req env w f data sc id :
  accepted req env w f data sc id ->
  let notify := negb (isSpam sc) && configured f in
  let w' := (serve req env w).2 in
  (serve req env w).1 = success id
  ∧ submissions (db w') = submissions (db w) ++ [row_of req data sc id]
  ∧ email_logs (db w') =
      email_logs (db w) ++
        (if notify && email_log_accepted env
         then [requested_email_log id env] else [])
  ∧ outbox w' = outbox w ++ (if notify then [notification_mail f data id] else [])
  ∧ console w' = console w ++ (if notify then dispatch_console env else []).
Proof.
  intros Hacc notify w'.
  destruct (serve_handler_accepted _ _ _ _ _ _ _ Hacc)
    as (w1 & Hw1 & Hsub & Hlogs & Hout & Hcon).
  unfold w', serve. rewrite Hw1. fold notify.
  destruct notify; cbn [from_option fst snd andb].
  - rewrite background_submissions, background_email_logs, background_outbox,
      background_console, Hsub, Hlogs, Hout, Hcon.
    now cbn.
  - rewrite Hsub, Hlogs, Hout, Hcon, !app_nil_r. split_and!; try done.
Qed.

(** When the evaluation throws, the handler's [catch] answers: nothing is
    stored, the rate history is the one it was. *)
Lemma serve_evaluation_throws req env w f data thrown :
  String.eqb (method req) "OPTIONS" = false ->
  String.eqb (formId_of req) "" = false ->
  select_active_form (forms_query_error env) (forms (db w)) (formId_of req)
    = DbData f ->
  json_body req = JsonObject data ->
  verdict_of req env w data = Throws thrown ->
  serve req env w =
    (Response 500 true (ErrorBody "Internal server error"),
     World (db w) (submissionCache w)
       (console w ++ [ConsoleError "Error processing submission:" thrown])
       (outbox w)).
Proof.
  intros Hm Hid Hf Hb Hv. unfold serve, serve_handler.
  rewrite Hm, Hid, Hf, Hb.
  destruct (detectSpam_thrown _ _ _ _ _ _ Hv) as [Hh Ht].
  rewrite (detectSpam_throws _ _ _ _ _ _ Hh Ht). reflexivity.
Qed.

(** On every other path nothing is stored and the response is an error or
    the preflight answer. *)
Lemma serve_not_accepted req env w :
  (∀ f data sc id, ¬ accepted req env w f data sc id) ->
  db (serve req env w).2 = db w
  ∧ outbox (serve req env w).2 = outbox w
  ∧ ∀ id, (serve req env w).1 ≠ success id.
Proof.
  intros Hno.
  destruct (String.eqb (method req) "OPTIONS") eqn:Hm;
    [unfold serve, serve_handler; rewrite Hm; now cbn|].
  destruct (String.eqb (formId_of req) "") eqn:Hid;
    [unfold serve, serve_handler; rewrite Hm, Hid; now cbn|].
  destruct (select_active_form (forms_query_error env) (forms (db w))
              (formId_of req)) as [f|e] eqn:Hf;
    [|unfold serve, serve_handler; rewrite Hm, Hid, Hf; now cbn].
  destruct (json_body req) as [data|e] eqn:Hb;
    [|unfold serve, serve_handler; rewrite Hm, Hid, Hf, Hb; now cbn].
  destruct (verdict_of req env w data) as [sc|thrown] eqn:Hv;
    [|rewrite (serve_evaluation_throws _ _ _ _ _ _ Hm Hid Hf Hb Hv); now cbn].
  destruct (submission_insert env) as [id|e] eqn:Hi;
    [now destruct (Hno f data sc id)|].
  unfold serve, serve_handler. rewrite Hm, Hid, Hf, Hb.
  unfold verdict_of in Hv.
  destruct (detectSpam data _ _ _ _) as [r cache]. cbn [fst] in Hv. subst r.
  rewrite Hi. now cbn.
Qed.

Lemma accepted_or_not req env w :
  (∃ f data sc id, accepted req env w f data sc id)
  ∨ (∀ f data sc id, ¬ accepted req env w f data sc id).
Proof.
  unfold accepted.
  destruct (String.eqb (method req) "OPTIONS");
    [right; intros ? ? ? ? (?&?&?&?&?&?); congruence|].
  destruct (String.eqb (formId_of req) "");
    [right; intros ? ? ? ? (?&?&?&?&?&?); congruence|].
  destruct (select_active_form _ _ _) as [f|e];
    [|right; intros ? ? ? ? (?&?&?&?&?&?); congruence].
  destruct (json_body req) as [data|e];
    [|right; intros ? ? ? ? (?&?&?&?&?&?); congruence].
  destruct (verdict_of req env w data) as [sc|thrown] eqn:Hv;
    [|right; intros ? ? ? ? (?&?&?&Hb&Hv'&?); injection Hb as <-; congruence].
  destruct (submission_insert env) as [id|e];
    [|right; intros ? ? ? ? (?&?&?&?&?&?); congruence].
  left. now exists f, data, sc, id.
Qed.

Lemma stores_accepted req env w row :
  stores req env w row ->
  ∃ f data sc,
    accepted req env w f data sc (sub_id row)
    ∧ row = row_of req data sc (sub_id row).
Proof.
  unfold stores. intros Hst.
  destruct (accepted_or_not req env w) as [(f & data & sc & id & Hacc)|Hno].
  - destruct (serve_accepted _ _ _ _ _ _ _ Hacc) as (_ & Hsub & _).
    rewrite Hsub in Hst. apply app_inv_head in Hst. injection Hst as <-.
    exists f, data, sc. now cbn.
  - exfalso. destruct (serve_not_accepted req env w Hno) as (Hdb & _).
    rewrite Hdb in Hst. now apply app_singleton_neq in Hst.
Qed.

Lemma accepted_stores req env w f data sc id :
  accepted req env w f data sc id -> stores req env w (row_of req data sc id).
Proof.
  intros Hacc. now destruct (serve_accepted _ _ _ _ _ _ _ Hacc) as (_ & ? & _).
Qed.

Lemma accepted_form_unique req env w f f' data sc id data' sc' id' :
  accepted req env w f data sc id -> accepted req env w f' data' sc' id' ->
  f = f' ∧ data = data' ∧ sc = sc' ∧ id = id'.
Proof.
  intros (_ & _ & Hf & Hb & Hv & Hi) (_ & _ & Hf' & Hb' & Hv' & Hi').
  assert (data = data') as <- by congruence.
  split_and!; congruence.
Qed.

Lemma filter_nothing {A} (P : A -> Prop) `{!∀ x, Decision (P x)} (l : list A) :
  (∀ x, x ∈ l -> ¬ P x) -> filter P l = [].
Proof.
  induction l as [|x l IH]; intros Hno; [reflexivity|].
  rewrite filter_cons_False by (apply Hno; left).
  apply IH. intros y Hy. apply Hno. now right.
Qed.

(** C6. Whenever a request stores a submission row, the request body is a
    payload object and the stored payload is that object with exactly the keys
    [__honeypot] and [__timestamp] deleted: neither control key is present in
    the stored payload and every other key has the value it had in the raw
    payload.  The spam flag of the row is not constrained, so this holds for
    submissions classified spam and not spam alike. *)
Theorem stored_payload_is_clean req env w row :
  stores req env w row ->
  ∃ data : gmap string value,
    json_body req = JsonObject data
    ∧ payload row = delete "__timestamp" (delete "__honeypot" data)
    ∧ payload row !! "__honeypot" = None
    ∧ payload row !! "__timestamp" = None
    ∧ ∀ k, k ≠ "__honeypot" -> k ≠ "__timestamp" -> payload row !! k = data !! k.
Proof.
  intros Hst.
  destruct (stores_accepted _ _ _ _ Hst) as (f & data & sc & Hacc & Hrow).
  exists data. destruct Hacc as (_ & _ & _ & Hb & _).
  rewrite Hrow. cbn [row_of payload]. split_and!; try done.
  - rewrite lookup_delete_ne by done. apply lookup_delete_eq.
  - apply lookup_delete_eq.
  - intros k Hh Ht. now rewrite !lookup_delete_ne.
Qed.

(** C7. Two requests that each store a submission row under the same
    submission id receive the same response, status 200 with body
    [{success: true, message, submission_id}], whatever the spam flags of the
    two rows are: the response does not depend on the verdict. *)
Theorem success_response_hides_verdict req1 env1 w1 row1 req2 env2 w2 row2 :
  stores req1 env1 w1 row1 -> stores req2 env2 w2 row2 ->
  sub_id row1 = sub_id row2 ->
  (serve req1 env1 w1).1 =
    Response 200 true (SuccessBody "Submission received" (sub_id row1))
  ∧ (serve req2 env2 w2).1 = (serve req1 env1 w1).1.
Proof.
  intros H1 H2 Hid.
  destruct (stores_accepted _ _ _ _ H1) as (f1 & d1 & sc1 & Ha1 & _).
  destruct (stores_accepted _ _ _ _ H2) as (f2 & d2 & sc2 & Ha2 & _).
  destruct (serve_accepted _ _ _ _ _ _ _ Ha1) as (-> & _).
  destruct (serve_accepted _ _ _ _ _ _ _ Ha2) as (-> & _).
  now rewrite Hid.
Qed.


(** C9 (amended). Whenever a request stores a submission row, the caller
    receives the success response, whatever the spam-signal insert, the mail
    send and the email-log inserts answer; a request that stores no row changes
    no table and does not receive the success response.  Of the failures after
    the submission insert only those of the mail send are logged: the console
    gains exactly the entries of the dispatch when a notification is
    dispatched, and nothing otherwise - a failed spam-signal insert or
    email-log insert leaves no log entry. *)
Theorem downstream_failures_are_swallowed req env w :
  (∀ row f, stores req env w row ->
     select_active_form (forms_query_error env) (forms (db w)) (formId_of req)
       = DbData f ->
     (∀ sig send lg lgc,
        (serve req (Environment (forms_query_error env) (now_timing env)
                      (now_rate env) (submission_insert env) sig send lg lgc) w).1
          = success (sub_id row))
     ∧ (serve req env w).1 = success (sub_id row)
     ∧ console (serve req env w).2 =
         console w ++
           (if negb (is_spam row) && configured f
            then dispatch_console env else []))
  ∧ ((∀ row, ¬ stores req env w row) ->
     db (serve req env w).2 = db w ∧ ∀ id, (serve req env w).1 ≠ success id).
Proof.
  split.
  - intros row f Hst Hf.
    destruct (stores_accepted _ _ _ _ Hst) as (f' & data & sc & Hacc & Hrow).
    assert (f' = f) as -> by (destruct Hacc as (_ & _ & Hf' & _); congruence).
    destruct (serve_accepted _ _ _ _ _ _ _ Hacc) as (Hresp & _ & _ & _ & Hcon).
    split_and!.
    + intros sig send lg lgc.
      apply (serve_accepted _ _ _ f data sc). destruct Hacc as (?&?&?&?&?&?).
      now split_and!.
    + done.
    + rewrite Hcon, Hrow. reflexivity.
  - intros Hno.
    destruct (serve_not_accepted req env w) as (Hdb & _ & Hresp); [|done].
    intros f data sc id Hacc. apply (Hno _ (accepted_stores _ _ _ _ _ _ _ Hacc)).
Qed.


End Intake.

(** ** The properties on the sample data *)

Ltac run := vm_compute; reflexivity.

(** The two accepted scenarios of the specification, and some corners. *)

Example scenario_legitimate :
  let r := serve (post intake_path bob) all_well sample_world in
  r.1 = success "s1"
  ∧ submissions (db r.2) = [bob_row]
  ∧ spam_signals (db r.2) = []
  ∧ outbox r.2 = [notification_mail contact_form bob "s1"]
  ∧ submissionCache r.2 !! "1.2.3.4" = Some [sample_now].
Proof. vm_compute. now split_and!. Qed.

Example scenario_honeypot :
  let r := serve (post intake_path bot) all_well sample_world in
  r.1 = success "s1"
  ∧ submissions (db r.2) = [bot_row]
  ∧ spam_signals (db r.2) = [SpamSignal "s1" "honeypot_filled" 100]
  ∧ outbox r.2 = []
  ∧ submissionCache r.2 !! "1.2.3.4" = None.
Proof. vm_compute. now split_and!. Qed.

Example honeypot_zero_is_not_filled :
  (detectSpam (<["__honeypot" := VNum zero]> plain) "1.2.3.4" sample_now sample_now ∅).1
  = Returns (SpamCheck false "" []).
Proof. run. Qed.

Example unreadable_timestamp_passes :
  (detectSpam (<["__timestamp" := VStr "just now"]> plain) "1.2.3.4"
     sample_now sample_now ∅).1
  = Returns (SpamCheck false "" []).
Proof. run. Qed.

(** An object without a [toString] of its own prints as [[object Object]],
    which [parseInt] reads as [NaN]. *)
Example object_timestamp_passes :
  (detectSpam (<["__timestamp" := VObj [("t", VNum one)]]> plain) "1.2.3.4"
     sample_now sample_now ∅).1
  = Returns (SpamCheck false "" []).
Proof. run. Qed.

(** With a [toString] of its own it cannot be converted: the evaluation
    throws, the handler answers 500 and stores nothing, and the origin's
    history is not touched. *)
Example unconvertible_timestamp_is_internal_error :
  detectSpam unconvertible "1.2.3.4" sample_now sample_now calm_cache
    = (Throws type_error, calm_cache)
  ∧ serve (post intake_path unconvertible) all_well sample_world =
      (Response 500 true (ErrorBody "Internal server error"),
       World (db sample_world) ∅
         [ConsoleError "Error processing submission:" type_error] []).
Proof. split; run. Qed.

Example unreadable_body_is_internal_error :
  let req := Request "POST" intake_path None None None (JsonThrows "SyntaxError") in
  serve req all_well sample_world =
    (Response 500 true (ErrorBody "Internal server error"),
     World (db sample_world) ∅
       [ConsoleError "Error processing submission:" "SyntaxError"] []).
Proof. run. Qed.

Lemma detectSpam_honeypot_witness :
  detectSpam bot "1.2.3.4" sample_now sample_now busy_cache =
    (Returns (SpamCheck true "Honeypot field was filled"
                [Signal "honeypot_filled" 100]),
     busy_cache).
Proof.
  apply (detectSpam_honeypot bot "1.2.3.4" sample_now sample_now busy_cache "spam");
    [run | discriminate].
Defined.

Lemma detectSpam_timing_witness :
  detectSpam hasty "1.2.3.4" sample_now sample_now ∅ =
    (Returns (SpamCheck true "Form submitted too quickly" [Signal "too_fast" 80]),
     ∅)
  ∧ detectSpam plain "1.2.3.4" sample_now sample_now ∅ =
      returned (check_rate plain "1.2.3.4" sample_now [] ∅).
Proof.
  split.
  - apply (proj1 (detectSpam_timing hasty "1.2.3.4" sample_now sample_now ∅
                    ltac:(run)) "1699999999000" 1699999999000);
      [run | run | reflexivity].
  - apply (proj2 (detectSpam_timing plain "1.2.3.4" sample_now sample_now ∅
                    ltac:(run))).
    run.
Defined.

Lemma detectSpam_rate_witness :
  detectSpam plain "1.2.3.4" sample_now sample_now busy_cache =
    (Returns (SpamCheck true "Too many submissions from this IP"
                [Signal "rate_limit_exceeded" 90]),
     busy_cache)
  ∧ (detectSpam plain "1.2.3.4" sample_now sample_now calm_cache).2 !! "1.2.3.4" =
      Some [1699999900000; 1699999950000; sample_now].
Proof.
  split.
  - apply (proj1 (detectSpam_rate plain "1.2.3.4" sample_now sample_now busy_cache
                    ltac:(run) ltac:(run))).
    vm_compute. lia.
  - apply (proj2 (detectSpam_rate plain "1.2.3.4" sample_now sample_now calm_cache
                    ltac:(run) ltac:(run))).
    vm_compute. lia.
Defined.

Lemma detectSpam_scoring_witness :
  ∃ r, (detectSpam linky "1.2.3.4" sample_now sample_now calm_cache).1 = Returns r
       ∧ Signal "multiple_urls" 60 ∈ signals r
       ∧ isSpam r = false
       ∧ reason r = "".
Proof.
  destruct (detectSpam_scoring linky "1.2.3.4" sample_now sample_now calm_cache
              ltac:(run) ltac:(run) ltac:(vm_compute; lia))
    as ((r & Hr & Hurl & Hspam & Hreason) & _).
  exists r. split; [exact Hr|].
  assert (Hin : Signal "multiple_urls" 60 ∈ signals r).
  { apply Hurl. exists "msg", "http://a.io https://b.io http://c.io".
    split; [run | vm_compute; lia]. }
  assert (Hnot : isSpam r = false).
  { vm_compute in Hr. injection Hr as <-. reflexivity. }
  split; [exact Hin|]. split; [exact Hnot|]. now rewrite Hreason, Hnot.
Defined.

Lemma detectSpam_threshold_unreachable_witness :
  ∃ r, (detectSpam linky "1.2.3.4" sample_now sample_now calm_cache).1 = Returns r
       ∧ isSpam r = false ∧ reason r = "".
Proof.
  destruct (proj2 (detectSpam_threshold_unreachable linky "1.2.3.4" sample_now
                     sample_now calm_cache)
              ltac:(run) ltac:(run) ltac:(vm_compute; lia))
    as (r & Hr & Hspam & Hreason & _).
  exists r. now split_and!.
Defined.

Lemma stored_payload_is_clean_witness :
  (∃ data, json_body (post intake_path bob) = JsonObject data
           ∧ payload bob_row = delete "__timestamp" (delete "__honeypot" data)
           ∧ payload bob_row !! "__honeypot" = None
           ∧ payload bob_row !! "__timestamp" = None
           ∧ ∀ k, k ≠ "__honeypot" -> k ≠ "__timestamp" ->
                  payload bob_row !! k = data !! k)
  ∧ is_spam bob_row = false ∧ is_spam bot_row = true
  ∧ payload bot_row !! "__honeypot" = None.
Proof.
  assert (Hbob : stores (post intake_path bob) all_well sample_world bob_row)
    by run.
  assert (Hbot : stores (post intake_path bot) all_well sample_world bot_row)
    by run.
  split; [exact (stored_payload_is_clean _ _ _ _ Hbob)|].
  destruct (stored_payload_is_clean _ _ _ _ Hbot) as (_ & _ & _ & Hh & _).
  now split_and!.
Defined.

Lemma success_response_hides_verdict_witness :
  is_spam bot_row = true ∧ is_spam bob_row = false
  ∧ (serve (post intake_path bob) all_well sample_world).1 =
      (serve (post intake_path bot) all_well sample_world).1.
Proof.
  assert (Hbob : stores (post intake_path bob) all_well sample_world bob_row)
    by run.
  assert (Hbot : stores (post intake_path bot) all_well sample_world bot_row)
    by run.
  split_and!; [reflexivity | reflexivity |].
  exact (proj2 (success_response_hides_verdict _ _ _ _ _ _ _ _
                  Hbot Hbob eq_refl)).
Defined.


Lemma downstream_failures_are_swallowed_witness :
  (serve (post intake_path bot) signals_down sample_world).1 = success "s1"
  ∧ (serve (post intake_path bob) mailer_down sample_world).1 = success "s1"
  ∧ console (serve (post intake_path bob) mailer_down sample_world).2 =
      [ConsoleError "Error in email notification:" "TypeError: fetch failed"].
Proof.
  assert (Hbot : stores (post intake_path bot) signals_down sample_world bot_row)
    by run.
  assert (Hbob : stores (post intake_path bob) mailer_down sample_world bob_row)
    by run.
  destruct (proj1 (downstream_failures_are_swallowed
                     (post intake_path bot) signals_down sample_world)
              bot_row contact_form Hbot ltac:(run)) as (_ & Hresp & _).
  destruct (proj1 (downstream_failures_are_swallowed
                     (post intake_path bob) mailer_down sample_world)
              bob_row contact_form Hbob ltac:(run)) as (_ & Hresp' & Hcon).
  split_and!; [exact Hresp | exact Hresp' | rewrite Hcon; run].
Defined.


(** C9, as stated, fails: a spam submission is stored, the insert of its
    signal row fails, the caller still receives the success response, and
    nothing at all is written to the console - the failure is swallowed
    without a log entry. *)
Lemma failed_signal_insert_is_not_logged :
  let r := serve (post intake_path bot) signals_down sample_world in
  r.1 = success "s1"
  ∧ submissions (db r.2) = [bot_row]
  ∧ signals_insert signals_down = DbError "relation spam_signals is unavailable"
  ∧ spam_signals (db r.2) = []
  ∧ console r.2 = [].
Proof. vm_compute. now split_and!. Qed.


(** ** Further properties of the spam evaluator *)

Section SpamEvaluatorMore.

Context `{Numbers num}.
Implicit Types (data : gmap string (value (num:=num))) (ip : string).
Implicit Types (cache : gmap string (list Z)).

Lemma detectSpam_cases data ip now_t now cache :
  let r := detectSpam data ip now_t now cache in
  r = (Returns (SpamCheck true "Honeypot field was filled"
                  [Signal "honeypot_filled" 100]), cache)
  ∨ r = (Returns (SpamCheck true "Form submitted too quickly"
                    [Signal "too_fast" 80]), cache)
  ∨ (∃ thrown, r = (Throws thrown, cache))
  ∨ r = (Returns (SpamCheck true "Too many submissions from this IP"
                    [Signal "rate_limit_exceeded" 90]), cache)
  ∨ (honeypot_filled data = false ∧ too_fast data now_t = Returns false
     ∧ (length (in_window now (default [] (cache !! ip))) <= 2)%nat
     ∧ ∃ sigs, (sigs = [] ∨ sigs = [Signal "multiple_urls" 60])
         ∧ r = (Returns (SpamCheck false "" sigs),
                <[ip := in_window now (default [] (cache !! ip)) ++ [now]]> cache)).
Proof.
  intros r. unfold r, detectSpam.
  destruct (honeypot_filled data); [now left|].
  destruct (too_fast data now_t) as [[|]|thrown];
    [now right; left | | right; right; left; now exists thrown].
  destruct (Nat.le_gt_cases 3 (length (in_window now (default [] (cache !! ip)))))
    as [Hn|Hn].
  - right; right; right; left. now rewrite check_rate_exceeded.
  - right; right; right; right. rewrite check_rate_allowed by lia.
    split_and!; try done; [lia|].
    unfold check_patterns. destruct (hasMultipleUrls data); eauto.
Qed.

(** X1. On every path on which [detectSpam] returns, the flag, the reason
    and the recorded scores of the result agree: the verdict is spam exactly
    when the recorded scores sum to at least 70, it is legitimate exactly
    when the reason is empty, and at most one signal is recorded. *)
Theorem verdict_is_consistent data ip now_t now cache r :
  (detectSpam data ip now_t now cache).1 = Returns r ->
  (isSpam r = true <-> 70 <= totalScore (signals r))
  ∧ (isSpam r = false <-> reason r = "")
  ∧ (length (signals r) <= 1)%nat.
Proof.
  destruct (detectSpam_cases data ip now_t now cache)
    as [-> | [-> | [(e & ->) | [-> | (_ & _ & _ & sigs & [-> | ->] & ->)]]]];
    cbn [fst]; intros [= <-];
    cbn; split_and!; try (split; intros ?; first [done | lia]); lia.
Qed.

(** X2. Origins do not interfere: an evaluation for [ip] leaves the history
    of every other origin as it was, and its verdict and the history it
    leaves for [ip] depend on the cache only through the history of [ip]. *)
Theorem origins_do_not_interfere data ip ip' now_t now cache cache2 :
  ip ≠ ip' -> cache2 !! ip = cache !! ip ->
  (detectSpam data ip now_t now cache).2 !! ip' = cache !! ip'
  ∧ (detectSpam data ip now_t now cache2).1 = (detectSpam data ip now_t now cache).1
  ∧ (detectSpam data ip now_t now cache2).2 !! ip
    = (detectSpam data ip now_t now cache).2 !! ip.
Proof.
  intros Hne Heq. split.
  - destruct (detectSpam_cases data ip now_t now cache)
      as [-> | [-> | [(e & ->) | [-> | (_ & _ & _ & sigs & _ & ->)]]]];
      cbn [snd]; try done.
    now rewrite lookup_insert_ne.
  - unfold detectSpam, check_rate, returned. rewrite Heq.
    destruct (honeypot_filled data); [done|].
    destruct (too_fast data now_t) as [[|]|e]; [done| |done].
    destruct (cache !! ip) as [l|] eqn:Hl; cbn [fst snd].
    + destruct (3 <=? length (in_window now l))%nat; cbn [fst snd];
        [now rewrite Hl | now rewrite !lookup_insert_eq].
    + now rewrite !lookup_insert_eq.
Qed.

(** X3. Histories stay short: if no origin has more than 3 recorded
    timestamps, the same holds after an evaluation, whatever its outcome. *)
Theorem history_stays_bounded data ip now_t now cache :
  (∀ o l, cache !! o = Some l -> (length l <= 3)%nat) ->
  ∀ o l, (detectSpam data ip now_t now cache).2 !! o = Some l ->
         (length l <= 3)%nat.
Proof.
  intros Hb o l.
  destruct (detectSpam_cases data ip now_t now cache)
    as [-> | [-> | [(e & ->) | [-> | (_ & _ & Hn & sigs & _ & ->)]]]];
    cbn [snd]; try apply Hb.
  destruct (decide (ip = o)) as [->|Hne].
  - rewrite lookup_insert_eq. intros [= <-]. rewrite length_app. cbn. lia.
  - rewrite lookup_insert_ne by done. apply Hb.
Qed.

Lemma in_window_all now (l : list Z) :
  (∀ ts, ts ∈ l -> now - 300000 < ts) -> in_window now l = l.
Proof.
  induction l as [|t l IH]; intros Hall; [reflexivity|].
  unfold in_window. rewrite filter_cons_True by (apply Hall; left).
  f_equal. apply IH. intros ts Hts. apply Hall. now right.
Qed.

Lemma in_window_stale now (l : list Z) :
  (∀ ts, ts ∈ l -> ts <= now - 300000) -> in_window now l = [].
Proof.
  intros Hall. apply filter_nothing. intros ts Hts Hlt.
  specialize (Hall ts Hts). lia.
Qed.

Lemma rate_limited_check_patterns data :
  rate_limited (check_patterns data []) = false.
Proof.
  unfold rate_limited. now rewrite (proj2 (check_patterns_legitimate data)).
Qed.

Lemma burst_from_history ip calls : ∀ cache,
  (length (default [] (cache !! ip)) <= 3)%nat ->
  (∀ c, c ∈ calls ->
        honeypot_filled (call_data c) = false
        ∧ too_fast (call_data c) (call_now_timing c) = Returns false) ->
  (∀ c c', c ∈ calls -> c' ∈ calls -> call_now c - 300000 < call_now c') ->
  (∀ t c, t ∈ default [] (cache !! ip) -> c ∈ calls ->
          call_now c - 300000 < t) ->
  (∀ i x, (detectSpam_each ip calls cache).1 !! i = Some x ->
          ∃ r, x = Returns r
               ∧ rate_limited r
                 = bool_decide (3 <= length (default [] (cache !! ip)) + i)%nat)
  ∧ default [] ((detectSpam_each ip calls cache).2 !! ip)
    = take 3 (default [] (cache !! ip) ++ (call_now <$> calls)).
Proof.
  induction calls as [|c rest IH]; intros cache Hlen Hpass Hspan Hhist.
  - cbn. split; [intros i r Hi; now rewrite lookup_nil in Hi|].
    now rewrite app_nil_r, take_ge.
  - destruct (Hpass c ltac:(left)) as [Hh Ht].
    cbn [detectSpam_each]. rewrite (detectSpam_passed _ _ _ _ _ Hh Ht).
    assert (Hwin : in_window (call_now c) (default [] (cache !! ip))
                   = default [] (cache !! ip)).
    { apply in_window_all. intros ts Hts. apply Hhist; [done | left]. }
    assert (Hrest : ∀ c', c' ∈ rest ->
                      honeypot_filled (call_data c') = false
                      ∧ too_fast (call_data c') (call_now_timing c')
                        = Returns false)
      by (intros c' Hc'; apply Hpass; now right).
    assert (Hspan' : ∀ c1 c2, c1 ∈ rest -> c2 ∈ rest ->
                       call_now c1 - 300000 < call_now c2)
      by (intros c1 c2 H1 H2; apply Hspan; now right).
    destruct (decide (length (default [] (cache !! ip)) = 3%nat)) as [H3|H3].
    + rewrite check_rate_exceeded by (rewrite Hwin; lia). cbn [returned fst snd].
      specialize (IH cache Hlen Hrest Hspan'
                    ltac:(intros t c' Ht' Hc'; apply Hhist; [done | now right])).
      destruct (detectSpam_each ip rest cache) as [rs cache'].
      destruct IH as [IHv IHh]. cbn [fst snd] in *. split.
      * intros [|i] x Hi; cbn in Hi.
        -- injection Hi as <-. eexists. split; [reflexivity|].
           rewrite bool_decide_eq_true_2 by lia. reflexivity.
        -- destruct (IHv i x Hi) as (r & -> & Hr). exists r. split; [done|].
           rewrite Hr. rewrite !bool_decide_eq_true_2 by lia. reflexivity.
      * rewrite IHh. rewrite !take_app_le by lia. reflexivity.
    + assert (Hlt : (length (default [] (cache !! ip)) <= 2)%nat) by lia.
      rewrite check_rate_allowed by (rewrite Hwin; lia). rewrite Hwin.
      cbn [returned fst snd].
      set (h := default [] (cache !! ip)) in *.
      set (cache1 := <[ip := h ++ [call_now c]]> cache).
      assert (Hh1 : default [] (cache1 !! ip) = h ++ [call_now c])
        by (unfold cache1; now rewrite lookup_insert_eq).
      specialize (IH cache1).
      rewrite Hh1 in IH.
      destruct IH as [IHv IHh]; try done.
      * rewrite length_app. cbn. lia.
      * intros t c' Ht' Hc'. apply elem_of_app in Ht' as [Ht'|Ht'].
        -- apply Hhist; [done | now right].
        -- apply list_elem_of_singleton in Ht' as ->.
           apply Hspan; [now right | left].
      * destruct (detectSpam_each ip rest cache1) as [rs cache'].
        cbn [fst snd] in *. split.
        -- intros [|i] x Hi; cbn in Hi.
           ++ injection Hi as <-. eexists. split; [reflexivity|].
              rewrite rate_limited_check_patterns.
              rewrite bool_decide_eq_false_2 by lia. reflexivity.
           ++ destruct (IHv i x Hi) as (r & -> & Hr). exists r. split; [done|].
              rewrite Hr. rewrite length_app. cbn.
              apply bool_decide_ext. lia.
        -- rewrite IHh. now rewrite <- app_assoc.
Qed.

(** X4. A burst is cut at three: when an origin without history submits any
    number of payloads that pass the honeypot and timing checks (the timing
    check returns without firing), at clock readings that all lie less than
    five minutes apart, every evaluation returns, exactly the first three pass
    the rate check and every later one is rate limited; the history left
    behind consists of the first three clock readings. *)
Theorem burst_is_cut_at_three ip calls cache :
  cache !! ip = None ->
  (∀ c, c ∈ calls ->
        honeypot_filled (call_data c) = false
        ∧ too_fast (call_data c) (call_now_timing c) = Returns false) ->
  (∀ c c', c ∈ calls -> c' ∈ calls -> call_now c - 300000 < call_now c') ->
  length (detectSpam_each ip calls cache).1 = length calls
  ∧ (∀ i x, (detectSpam_each ip calls cache).1 !! i = Some x ->
            ∃ r, x = Returns r ∧ rate_limited r = bool_decide (3 <= i)%nat)
  ∧ default [] ((detectSpam_each ip calls cache).2 !! ip)
    = take 3 (call_now <$> calls).
Proof.
  intros Hnone Hpass Hspan. split.
  - clear. revert cache. induction calls as [|c rest IH]; intros cache; [done|].
    cbn [detectSpam_each].
    destruct (detectSpam _ _ _ _ _) as [r cache1].
    specialize (IH cache1). destruct (detectSpam_each ip rest cache1).
    cbn in *. now rewrite IH.
  - destruct (burst_from_history ip calls cache) as [Hv Hh]; try done.
    + rewrite Hnone. cbn. lia.
    + rewrite Hnone. intros t c Ht. now apply elem_of_nil in Ht.
    + rewrite Hnone in Hv, Hh. cbn in Hv, Hh. now split.
Qed.

(** X5. Recorded timestamps expire: when the honeypot and timing checks pass
    (the timing check returns without firing) and every timestamp recorded
    for the origin is five minutes old or older (exactly five minutes
    included), the rate check passes, however many timestamps were recorded,
    and the origin's history is replaced by the current time alone. *)
Theorem stale_history_is_dropped data ip now_t now cache :
  honeypot_filled data = false -> too_fast data now_t = Returns false ->
  (∀ ts, ts ∈ default [] (cache !! ip) -> ts <= now - 300000) ->
  detectSpam data ip now_t now cache
  = (Returns (check_patterns data []), <[ip := [now]]> cache).
Proof.
  intros Hh Ht Hstale. rewrite detectSpam_passed by done.
  rewrite check_rate_allowed; rewrite in_window_stale by done; [done | cbn; lia].
Qed.

End SpamEvaluatorMore.

(** ** Strings: URL matches, [parseInt], paths *)

Section Strings.

Context `{Numbers num}.

Lemma prefix_split (p s : string) :
  String.prefix p s = true -> ∃ r, s = p +:+ r.
Proof.
  revert s. induction p as [|a p IH]; intros s Hp; [now exists s|].
  destruct s as [|b s]; [discriminate|]. cbn in Hp.
  destruct (ascii_dec a b) as [->|]; [|discriminate].
  destruct (IH s Hp) as [r ->]. now exists r.
Qed.

Lemma length_append (a b : string) :
  String.length (a +:+ b) = (String.length a + String.length b)%nat.
Proof.
  induction a as [|c a IH]; [reflexivity|].
  change (S (String.length (a +:+ b)) = S (String.length a + String.length b)).
  now rewrite IH.
Qed.

(** One step of the scan: a match is consumed whole, any other character
    is passed over. *)
Lemma count_url_matches_step (s : string) :
  s = ""
  ∨ (∃ r, s = "https://" +:+ r
          ∧ count_url_matches 0 s = S (count_url_matches 0 r)
          ∧ url_positions s = S (url_positions r))
  ∨ (∃ r, s = "http://" +:+ r
          ∧ count_url_matches 0 s = S (count_url_matches 0 r)
          ∧ url_positions s = S (url_positions r))
  ∨ (∃ c s', s = String c s'
             ∧ count_url_matches 0 s = count_url_matches 0 s'
             ∧ url_positions s = url_positions s').
Proof.
  destruct s as [|c s']; [now left|]. right.
  destruct (String.prefix "https://" (String c s')) eqn:Hs.
  { left. destruct (prefix_split _ _ Hs) as [r Hr].
    exists r. rewrite Hr. split_and!; [done | cbn; now destruct r..]. }
  destruct (String.prefix "http://" (String c s')) eqn:Hp.
  { right; left. destruct (prefix_split _ _ Hp) as [r Hr].
    exists r. rewrite Hr. split_and!; [done | cbn; now destruct r..]. }
  right; right. exists c, s'. split; [done|].
  cbn [count_url_matches url_positions]. now rewrite Hs, Hp.
Qed.

(** X6. The scan with the global regular expression counts occurrences:
    the number of matches of [/https?:\/\//g] in a string is the number of
    positions at which [http://] or [https://] starts - skipping over a match
    never loses one. *)
Theorem count_url_matches_counts_positions (s : string) :
  count_url_matches 0 s = url_positions s.
Proof.
  remember (String.length s) as n eqn:Hn. revert s Hn.
  induction (lt_wf n) as [n _ IH]. intros s ->.
  destruct (count_url_matches_step s)
    as [-> | [(r & Hs & -> & ->) | [(r & Hs & -> & ->) | (c & s' & Hs & -> & ->)]]];
    [reflexivity | | |];
    [f_equal | f_equal |]; (eapply IH; [|reflexivity]); rewrite Hs, ?length_append; cbn; lia.
Qed.

Lemma count_url_matches_length (s : string) :
  (7 * count_url_matches 0 s <= String.length s)%nat.
Proof.
  remember (String.length s) as n eqn:Hn. revert s Hn.
  induction (lt_wf n) as [n _ IH]. intros s ->.
  destruct (count_url_matches_step s)
    as [-> | [(r & Hs & -> & _) | [(r & Hs & -> & _) | (c & s' & Hs & -> & _)]]];
    [cbn; lia | | |].
  - assert (7 * count_url_matches 0 r <= String.length r)%nat
      by (eapply IH; [|reflexivity]; rewrite Hs, ?length_append; cbn; lia).
    rewrite Hs, ?length_append. cbn. lia.
  - assert (7 * count_url_matches 0 r <= String.length r)%nat
      by (eapply IH; [|reflexivity]; rewrite Hs, ?length_append; cbn; lia).
    rewrite Hs, ?length_append. cbn. lia.
  - assert (7 * count_url_matches 0 s' <= String.length s')%nat
      by (eapply IH; [|reflexivity]; rewrite Hs, ?length_append; cbn; lia).
    rewrite Hs, ?length_append. cbn. lia.
Qed.

(** X7. Short fields cannot raise the URL signal: a payload whose string
    values are all shorter than 21 characters never has
    [hasMultipleUrls]. *)
Theorem short_fields_have_no_multiple_urls (data : gmap string (value (num:=num))) :
  (∀ k s, data !! k = Some (VStr s) -> (String.length s < 21)%nat) ->
  hasMultipleUrls data = false.
Proof.
  intros Hshort. destruct (hasMultipleUrls data) eqn:Hm; [|reflexivity].
  apply hasMultipleUrls_spec in Hm as (k & s & Hk & Hc).
  specialize (Hshort k s Hk). pose proof (count_url_matches_length s). lia.
Qed.

(** *** [parseInt] on the digits of an integer *)

Lemma digit_value_char (d : N) :
  (d < 10)%N -> digit_value (pretty_N_char d) = Some (Z.of_N d).
Proof.
  intros Hd.
  assert (d = 0 ∨ d = 1 ∨ d = 2 ∨ d = 3 ∨ d = 4 ∨ d = 5 ∨ d = 6 ∨ d = 7
          ∨ d = 8 ∨ d = 9)%N as Hcases by lia.
  repeat destruct Hcases as [-> | Hcases]; try subst d; reflexivity.
Qed.

Lemma read_digits_char (d : N) (acc : option Z) (s : string) :
  (d < 10)%N ->
  read_digits 10 acc (String (pretty_N_char d) s)
  = read_digits 10 (Some (10 * default 0 acc + Z.of_N d)) s.
Proof.
  intros Hd. cbn [read_digits]. rewrite (digit_value_char d Hd).
  destruct (Z.ltb_spec (Z.of_N d) 10); [reflexivity | lia].
Qed.

Lemma read_digits_pretty (x : N) : ∀ s,
  (0 < x)%N ->
  read_digits 10 None (pretty_N_go x s) = read_digits 10 (Some (Z.of_N x)) s.
Proof.
  induction (N.lt_wf_0 x) as [x _ IH]. intros s Hx.
  rewrite pretty_N_go_step by done.
  assert (Hmod : (x `mod` 10 < 10)%N) by (apply N.mod_lt; lia).
  assert (Hdm : x = (10 * (x `div` 10) + x `mod` 10)%N) by (apply N.div_mod; lia).
  assert (Hlt : (x `div` 10 < x)%N) by (apply N.div_lt; lia).
  revert Hmod Hdm Hlt IH.
  generalize (x `mod` 10)%N (x `div` 10)%N. intros r q Hmod Hdm Hlt IH.
  destruct (decide (q = 0)%N) as [H0|H0].
  - rewrite H0, pretty_N_go_0, read_digits_char by done.
    f_equal. f_equal. cbn. lia.
  - rewrite IH by (done || lia).
    rewrite read_digits_char by done. f_equal. f_equal. cbn. lia.
Qed.

Lemma pretty_leading_digit (x : N) : ∀ s,
  (0 < x)%N ->
  ∃ d rest, (1 <= d < 10)%N ∧ pretty_N_go x s = String (pretty_N_char d) rest.
Proof.
  induction (N.lt_wf_0 x) as [x _ IH]. intros s Hx.
  rewrite pretty_N_go_step by done.
  assert (Hmod : (x `mod` 10 < 10)%N) by (apply N.mod_lt; lia).
  assert (Hdm : x = (10 * (x `div` 10) + x `mod` 10)%N) by (apply N.div_mod; lia).
  assert (Hlt : (x `div` 10 < x)%N) by (apply N.div_lt; lia).
  revert Hmod Hdm Hlt IH.
  generalize (x `mod` 10)%N (x `div` 10)%N. intros r q Hmod Hdm Hlt IH.
  destruct (decide (q = 0)%N) as [H0|H0].
  - rewrite H0, pretty_N_go_0. exists r, s. split; [lia | done].
  - apply IH; [done | lia].
Qed.

Lemma parseInt_string_digit (d : N) (rest : string) :
  (1 <= d < 10)%N ->
  parseInt_string (String (pretty_N_char d) rest)
  = Z.mul 1 <$> read_digits 10 None (String (pretty_N_char d) rest).
Proof.
  intros Hd.
  assert (d = 1 ∨ d = 2 ∨ d = 3 ∨ d = 4 ∨ d = 5 ∨ d = 6 ∨ d = 7
          ∨ d = 8 ∨ d = 9)%N as Hcases by lia.
  repeat destruct Hcases as [-> | Hcases]; try subst d; reflexivity.
Qed.

Lemma parseInt_string_minus_digit (d : N) (rest : string) :
  (1 <= d < 10)%N ->
  parseInt_string (String "-" (String (pretty_N_char d) rest))
  = Z.mul (-1) <$> read_digits 10 None (String (pretty_N_char d) rest).
Proof.
  intros Hd.
  assert (d = 1 ∨ d = 2 ∨ d = 3 ∨ d = 4 ∨ d = 5 ∨ d = 6 ∨ d = 7
          ∨ d = 8 ∨ d = 9)%N as Hcases by lia.
  repeat destruct Hcases as [-> | Hcases]; try subst d; reflexivity.
Qed.

Lemma parseInt_string_pretty (z : Z) : parseInt_string (pretty z) = Some z.
Proof.
  destruct z as [|p|p].
  - reflexivity.
  - change (pretty (Z.pos p)) with (pretty_N_go (N.pos p) "").
    destruct (pretty_leading_digit (N.pos p) "" ltac:(lia))
      as (d & rest & Hd & Heq).
    rewrite Heq, parseInt_string_digit, <- Heq, read_digits_pretty by (done || lia).
    reflexivity.
  - change (pretty (Z.neg p)) with (String "-" (pretty_N_go (N.pos p) "")).
    destruct (pretty_leading_digit (N.pos p) "" ltac:(lia))
      as (d & rest & Hd & Heq).
    rewrite Heq, parseInt_string_minus_digit, <- Heq, read_digits_pretty
      by (done || lia).
    reflexivity.
Qed.

(** [parseInt] returns the Number nearest to the integer it has read.  For
    a clock reading in the range of [Date.now()] the comparison of line 40
    comes out the same for the integer itself and for every rounding of it
    that is monotone and keeps the integers up to [2^53]. *)
Lemma rounding_keeps_timing (round : Z -> Z) (now t : Z) :
  (∀ a b, a <= b -> round a <= round b) ->
  (∀ a, - 2 ^ 53 <= a <= 2 ^ 53 -> round a = a) ->
  0 <= now < 2 ^ 53 ->
  (now - round t <? 2000) = (now - t <? 2000).
Proof.
  intros Hmono Hexact Hnow.
  destruct (Z_lt_le_dec t (- 2 ^ 53)) as [Hlow|Hlow].
  - pose proof (Hmono t (- 2 ^ 53) ltac:(lia)) as Hr.
    rewrite (Hexact (- 2 ^ 53)) in Hr by lia.
    transitivity false; [|symmetry]; apply Z.ltb_ge; lia.
  - destruct (Z_le_gt_dec t (2 ^ 53)) as [Hhigh|Hhigh].
    + now rewrite Hexact.
    + pose proof (Hmono (2 ^ 53) t ltac:(lia)) as Hr.
      rewrite (Hexact (2 ^ 53)) in Hr by lia.
      transitivity true; [|symmetry]; apply Z.ltb_lt; lia.
Qed.

(** X9. A submission sent by the embed script, whose honeypot input is
    empty, is classified by the delay between the submitter's click and the
    evaluation: if the server's clock reads less than 2000 ms more than the
    submitter's clock did at the click, the verdict is "Form submitted too
    quickly" and the history is untouched; otherwise the timing check
    passes and the verdict is that of the rate check and what follows it. *)
Theorem embed_submission_timing (entries : gmap string string)
    (clock now_t now : Z) ip (cache : gmap string (list Z)) :
  default "" (entries !! "__honeypot") = "" ->
  (now_t - clock < 2000 ->
   detectSpam (embed_data entries clock) ip now_t now cache
   = (Returns (SpamCheck true "Form submitted too quickly"
                 [Signal "too_fast" 80]),
      cache))
  ∧ (2000 <= now_t - clock ->
     detectSpam (embed_data entries clock) ip now_t now cache
     = returned
         (check_rate (num:=num) (embed_data entries clock) ip now [] cache)).
Proof.
  intros Hhp.
  assert (Hh : honeypot_filled (embed_data entries clock) = false).
  { rewrite honeypot_filled_truthy. unfold embed_data.
    rewrite lookup_insert_ne, lookup_fmap by done.
    destruct (entries !! "__honeypot") as [v|]; [|done].
    cbn in Hhp. now subst v. }
  assert (Hts : (embed_data entries clock : gmap string (value (num:=num)))
                  !! "__timestamp"
                = Some (VStr (pretty clock)))
    by apply lookup_insert_eq.
  assert (Hne : pretty clock ≠ "").
  { intros Hempty. pose proof (parseInt_string_pretty clock) as Hp.
    rewrite Hempty in Hp. discriminate. }
  assert (Htf : too_fast (embed_data entries clock) now_t
                = Returns (bool_decide (now_t - clock < 2000))).
  { apply (too_fast_elapsed _ _ (VStr (pretty clock))); [done | |].
    - now apply truthy_string.
    - unfold parseInt. cbn [to_string]. now rewrite parseInt_string_pretty. }
  unfold detectSpam. rewrite Hh, Htf. split; intros Hd.
  - now rewrite bool_decide_eq_true_2.
  - now rewrite bool_decide_eq_false_2 by lia.
Qed.

(** *** The form id in the path *)

Lemma append_assoc (a b c : string) : (a +:+ b) +:+ c = a +:+ (b +:+ c).
Proof.
  induction a as [|x a IH]; [reflexivity|].
  change (String x ((a +:+ b) +:+ c) = String x (a +:+ (b +:+ c))).
  now rewrite IH.
Qed.

Lemma split_no_separator (sep : ascii) (s : string) : ∀ cur,
  sep ∉ list_ascii_of_string s -> split sep cur s = [cur +:+ s].
Proof.
  induction s as [|c s IH]; intros cur Hno.
  - cbn. f_equal. induction cur as [|x cur IHc]; [reflexivity|].
    change (String x cur = String x (cur +:+ "")). now rewrite <- IHc.
  - cbn [split]. cbn in Hno. apply not_elem_of_cons in Hno as [Hc Hs].
    destruct (Ascii.eqb_spec c sep) as [->|_]; [done|].
    rewrite IH by done. now rewrite append_assoc.
Qed.

Lemma split_last_part (sep : ascii) (id a : string) : ∀ cur,
  sep ∉ list_ascii_of_string id ->
  last (split sep cur (a +:+ String sep id)) = Some id.
Proof.
  intros cur Hno. revert cur. induction a as [|c a IH]; intros cur.
  - change ("" +:+ String sep id) with (String sep id). cbn [split].
    rewrite Ascii.eqb_refl, split_no_separator by done. reflexivity.
  - change (String c a +:+ String sep id) with (String c (a +:+ String sep id)).
    cbn [split]. destruct (Ascii.eqb c sep); [|apply IH].
    rewrite last_cons, IH. reflexivity.
Qed.

(** X10. The handler recovers the form id the embed script puts in the URL:
    for every id without a slash, a request to
    [<base>/functions/v1/submit-form/<id>] has form id [id], whatever the base
    path is. *)
Theorem formId_of_embed_path (req : request (num:=num)) (base id : string) :
  pathname req = embed_path base id ->
  "/"%char ∉ list_ascii_of_string id ->
  formId_of req = id.
Proof.
  intros Hpath Hno. unfold formId_of. rewrite Hpath. unfold embed_path.
  change "/functions/v1/submit-form/" with
    ("/functions/v1/submit-form" +:+ String "/" "").
  rewrite (append_assoc "/functions/v1/submit-form" (String "/" "") id).
  change (String "/" "" +:+ id) with (String "/" id).
  rewrite <- append_assoc, split_last_part by done. reflexivity.
Qed.

(** X11. A request other than a preflight whose path is empty or ends in a
    slash has no form id: it is answered 400 "Form ID is required" and nothing
    is read or changed - no table, no history, no console entry, no mail. *)
Theorem missing_form_id_is_bad_request (req : request (num:=num)) env w
    (base : string) :
  method req ≠ "OPTIONS" ->
  pathname req = "" ∨ pathname req = base +:+ "/" ->
  serve req env w = (Response 400 true (ErrorBody "Form ID is required"), w).
Proof.
  intros Hm Hpath. apply String.eqb_neq in Hm.
  assert (Hid : formId_of req = "").
  { destruct Hpath as [Hp|Hp]; unfold formId_of; rewrite Hp; [reflexivity|].
    change (base +:+ "/") with (base +:+ String "/" "").
    now rewrite split_last_part by apply not_elem_of_nil. }
  unfold serve, serve_handler. now rewrite Hm, Hid.
Qed.

End Strings.

(** ** Further properties of the intake handler *)

Section IntakeMore.

Context `{Numbers num}.
Implicit Types (req : request (num:=num)) (env : environment).
Implicit Types (w : world (num:=num)) (row : submission (num:=num)).

Lemma serve_accepted_signals req env w f data sc id :
  accepted req env w f data sc id ->
  spam_signals (db (serve req env w).2) =
    spam_signals (db w) ++
      match signals_insert env with
      | DbData _ =>
          (fun s => SpamSignal id (signal_name s) (score s)) <$> signals sc
      | DbError _ => []
      end.
Proof.
  intros (Hm & Hid & Hf & Hb & Hv & Hi).
  unfold serve, serve_handler. unfold verdict_of in Hv. rewrite Hm, Hid, Hf, Hb.
  destruct (detectSpam data _ (now_timing env) (now_rate env) (submissionCache w))
    as [r cache]. cbn [fst] in Hv. subst r. rewrite Hi. cbn [fst snd].
  assert (Hsig : spam_signals (db
            (if (0 <? length (signals sc))%nat
             then match signals_insert env with
                  | DbData _ =>
                      insert_spam_signals
                        ((fun s => SpamSignal id (signal_name s) (score s))
                           <$> signals sc)
                        (insert_submission
                           (Submission id (formId_of req)
                              (delete "__timestamp" (delete "__honeypot" data))
                              (or_else (x_forwarded_for req)
                                 (or_else (x_real_ip req) "unknown"))
                              (or_else (user_agent_header req) "")
                              (isSpam sc) (reason sc)) (set_cache cache w))
                  | DbError _ =>
                      insert_submission
                        (Submission id (formId_of req)
                           (delete "__timestamp" (delete "__honeypot" data))
                           (or_else (x_forwarded_for req)
                              (or_else (x_real_ip req) "unknown"))
                           (or_else (user_agent_header req) "")
                           (isSpam sc) (reason sc)) (set_cache cache w)
                  end
             else insert_submission
                    (Submission id (formId_of req)
                       (delete "__timestamp" (delete "__honeypot" data))
                       (or_else (x_forwarded_for req)
                          (or_else (x_real_ip req) "unknown"))
                       (or_else (user_agent_header req) "")
                       (isSpam sc) (reason sc)) (set_cache cache w)))
          = spam_signals (db w) ++
              match signals_insert env with
              | DbData _ =>
                  (fun s => SpamSignal id (signal_name s) (score s)) <$> signals sc
              | DbError _ => []
              end).
  { destruct (signals sc) as [|s0 sigs]; cbn.
    - destruct (signals_insert env); now rewrite app_nil_r.
    - destruct (signals_insert env); cbn; now rewrite ?app_nil_r. }
  destruct (negb (isSpam sc) && _); cbn [from_option];
    [rewrite background_spam_signals|]; exact Hsig.
Qed.

(** X12. References stay resolved.  A request only appends to the three
    tables: at most one submission row, and signal rows and email-log rows
    that all carry the id of the submission row the same request has stored -
    so none when it has stored none, as when the submission insert fails.
    Hence, if every signal row and every email-log row refers to a stored
    submission before a request, the same holds after it, whatever the request
    and the collaborators' answers are. *)
Theorem serve_keeps_references_resolved req env w :
  let d := db w in
  let d' := db (serve req env w).2 in
  (∃ new_rows new_signals new_logs,
     submissions d' = submissions d ++ new_rows
     ∧ spam_signals d' = spam_signals d ++ new_signals
     ∧ email_logs d' = email_logs d ++ new_logs
     ∧ forms d' = forms d
     ∧ (length new_rows <= 1)%nat
     ∧ (∀ s, s ∈ new_signals ->
             ∃ r, new_rows = [r] ∧ sig_submission_id s = sub_id r)
     ∧ (∀ l, l ∈ new_logs ->
             ∃ r, new_rows = [r] ∧ log_submission_id l = sub_id r)
     ∧ (new_rows = [] -> new_signals = [] ∧ new_logs = []))
  ∧ (references_resolve d -> references_resolve d').
Proof.
  intros d d'.
  assert (Hgrow : ∃ new_rows new_signals new_logs,
     submissions d' = submissions d ++ new_rows
     ∧ spam_signals d' = spam_signals d ++ new_signals
     ∧ email_logs d' = email_logs d ++ new_logs
     ∧ forms d' = forms d
     ∧ (length new_rows <= 1)%nat
     ∧ (∀ s, s ∈ new_signals ->
             ∃ r, new_rows = [r] ∧ sig_submission_id s = sub_id r)
     ∧ (∀ l, l ∈ new_logs ->
             ∃ r, new_rows = [r] ∧ log_submission_id l = sub_id r)
     ∧ (new_rows = [] -> new_signals = [] ∧ new_logs = [])).
  { destruct (accepted_or_not req env w) as [(f & data & sc & id & Hacc)|Hno].
    - destruct (serve_accepted _ _ _ _ _ _ _ Hacc) as (_ & Hsub & Hlogs & _).
      pose proof (serve_accepted_signals _ _ _ _ _ _ _ Hacc) as Hsigs.
      cbn zeta in Hsub, Hlogs. fold d d' in Hsub, Hlogs, Hsigs.
      eexists _, _, _. split; [exact Hsub|]. split; [exact Hsigs|].
      split; [exact Hlogs|]. split_and!.
      + unfold d', d. destruct Hacc as (Hm & Hid & Hf & Hb & Hv & Hi).
        unfold serve, serve_handler. unfold verdict_of in Hv.
        rewrite Hm, Hid, Hf, Hb.
        destruct (detectSpam data _ _ _ _) as [r cache]. cbn [fst] in Hv.
        subst r. rewrite Hi.
        destruct (0 <? length (signals sc))%nat, (signals_insert env),
          (negb (isSpam sc) && _); cbn [from_option fst snd];
          unfold background, sendNotificationEmail, insert_email_log;
          destruct (email_send env), (email_log_insert env),
            (email_log_insert_catch env); reflexivity.
      + cbn. lia.
      + intros s Hs. eexists. split; [reflexivity|].
        destruct (signals_insert env); [|now apply elem_of_nil in Hs].
        apply list_elem_of_fmap in Hs as (sg & -> & _). reflexivity.
      + intros l Hl. eexists. split; [reflexivity|].
        destruct (_ && _); [|now apply elem_of_nil in Hl].
        apply list_elem_of_singleton in Hl as ->.
        unfold requested_email_log. now destruct (email_send env).
      + discriminate.
    - destruct (serve_not_accepted req env w Hno) as (Hdb & _).
      exists [], [], []. unfold d', d. rewrite Hdb, !app_nil_r.
      split_and!; try done; [cbn; lia | |];
        intros x Hx; now apply elem_of_nil in Hx. }
  split; [exact Hgrow|].
  destruct Hgrow as (rows & sigs & logs & Hsub & Hsigs & Hlogs & _ & _
                     & Hs & Hl & _).
  intros [Hsig Hlog]. split.
  - intros s Hin. rewrite Hsigs in Hin. apply elem_of_app in Hin as [Hin|Hin].
    + destruct (Hsig s Hin) as (r & Hr & Hid). exists r. split; [|done].
      rewrite Hsub. apply elem_of_app. now left.
    + destruct (Hs s Hin) as (r & -> & Hid). exists r. split; [|done].
      rewrite Hsub. apply elem_of_app. right. left.
  - intros l Hin. rewrite Hlogs in Hin. apply elem_of_app in Hin as [Hin|Hin].
    + destruct (Hlog l Hin) as (r & Hr & Hid). exists r. split; [|done].
      rewrite Hsub. apply elem_of_app. now left.
    + destruct (Hl l Hin) as (r & -> & Hid). exists r. split; [|done].
      rewrite Hsub. apply elem_of_app. right. left.
Qed.

(** X13. The notification lists the stored fields except those whose name
    starts with two underscores: when a request stores a legitimate row on a
    form with a notification address, exactly one message is handed to the
    mailer, addressed to that address alone, and a field is listed in it
    exactly when it is in the stored payload and its name does not start with
    [__], with the stored value. *)
Theorem notification_lists_public_fields req env w row f :
  stores req env w row ->
  select_active_form (forms_query_error env) (forms (db w)) (formId_of req)
    = DbData f ->
  is_spam row = false -> configured f = true ->
  ∃ m, outbox (serve req env w).2 = outbox w ++ [m]
       ∧ email_to m = [default "" (notification_email f)]
       ∧ html_submission_id m = sub_id row
       ∧ ∀ k, html_fields m !! k
              = if String.prefix "__" k then None else payload row !! k.
Proof.
  intros Hst Hf Hspam Hconf.
  destruct (stores_accepted _ _ _ _ Hst) as (f' & data & sc & Hacc & Hrow).
  assert (f' = f) as -> by (destruct Hacc as (_ & _ & Hf' & _); congruence).
  destruct (serve_accepted _ _ _ _ _ _ _ Hacc) as (_ & _ & _ & Hout & _).
  cbn zeta in Hout.
  assert (His : is_spam row = isSpam sc) by now rewrite Hrow.
  rewrite <- His, Hspam, Hconf in Hout. cbn in Hout.
  exists (notification_mail f data (sub_id row)). split_and!; try done.
  intros k. rewrite Hrow. cbn [notification_mail html_fields row_of payload].
  rewrite map_lookup_filter.
  destruct (delete "__timestamp" (delete "__honeypot" data) !! k) as [v|];
    cbn; [|now destruct (String.prefix "__" k)].
  destruct (String.prefix "__" k); [rewrite option_guard_False | rewrite option_guard_True];
    cbn; congruence.
Qed.

(** X14. A failed submission insert still counts against the origin: when
    the form is found, the body is read and the spam evaluation returns, but
    the insert of the submission fails, the caller gets 500 "Failed to save
    submission", no table changes, no mail is sent and the error is logged -
    yet the rate history is the one the spam evaluation has left, so the
    attempt uses up quota: an evaluation that has passed the first two checks
    with fewer than 3 recent timestamps has added the clock reading to the
    origin's history.  When the evaluation throws instead, the insert is not
    reached: the caller gets 500 "Internal server error" and the history is
    the one it was. *)
Theorem failed_insert_uses_quota req env w f data e :
  method req ≠ "OPTIONS" -> formId_of req ≠ "" ->
  select_active_form (forms_query_error env) (forms (db w)) (formId_of req)
    = DbData f ->
  json_body req = JsonObject data ->
  submission_insert env = DbError e ->
  let ip := or_else (x_forwarded_for req) (or_else (x_real_ip req) "unknown") in
  let evaluation :=
    detectSpam data ip (now_timing env) (now_rate env) (submissionCache w) in
  (∀ spamCheck, evaluation.1 = Returns spamCheck ->
     serve req env w =
       (Response 500 true (ErrorBody "Failed to save submission"),
        World (db w) evaluation.2
          (console w ++ [ConsoleError "Error inserting submission:" e])
          (outbox w))
     ∧ (honeypot_filled data = false ->
        too_fast data (now_timing env) = Returns false ->
        (length (filter (fun ts => (now_rate env - ts < 300000)%Z)
                   (default [] (submissionCache w !! ip))) <= 2)%nat ->
        last (default [] (submissionCache (serve req env w).2 !! ip))
          = Some (now_rate env)))
  ∧ (∀ thrown, evaluation.1 = Throws thrown ->
       serve req env w =
         (Response 500 true (ErrorBody "Internal server error"),
          World (db w) (submissionCache w)
            (console w ++ [ConsoleError "Error processing submission:" thrown])
            (outbox w))).
Proof.
  intros Hm Hid Hf Hb Hi ip evaluation.
  apply String.eqb_neq in Hm, Hid. split.
  - intros sc Hv.
    assert (Hserve : serve req env w =
       (Response 500 true (ErrorBody "Failed to save submission"),
        World (db w) evaluation.2
          (console w ++ [ConsoleError "Error inserting submission:" e])
          (outbox w))).
    { unfold serve, serve_handler. rewrite Hm, Hid, Hf, Hb.
      unfold evaluation, ip in *.
      destruct (detectSpam data _ _ _ _) as [r cache]. cbn [fst] in Hv.
      subst r. now rewrite Hi. }
    split; [exact Hserve|]. intros Hh Ht Hn. rewrite Hserve. cbn [snd submissionCache].
    unfold evaluation. rewrite detectSpam_passed by done.
    rewrite check_rate_allowed by now rewrite in_window_age.
    cbn [returned snd]. rewrite lookup_insert_eq. cbn [default].
    apply last_snoc.
  - intros thrown Hv. now apply (serve_evaluation_throws _ _ _ f data).
Qed.

End IntakeMore.

(** ** Properties of the request limiter *)

Section RateLimitProperties.

Import RateLimit.

Implicit Types (ip : string) (limits : gmap string entry).

Lemma rateLimit_running ip now limits e :
  limits !! ip = Some e -> now <= resetTime e ->
  rateLimit ip now limits =
    ((if RATE_LIMIT_max <? count e + 1
      then Some (Rejection "Too many requests" 429
                   (ceil_div (resetTime e - now) 1000))
      else None),
     <[ip := Entry (count e + 1) (resetTime e)]> limits).
Proof.
  intros He Hnow. unfold rateLimit. rewrite He.
  destruct (Z.ltb_spec (resetTime e) now); [lia|].
  cbv zeta. cbn [count resetTime].
  case (RATE_LIMIT_max <? count e + 1); reflexivity.
Qed.

Lemma rateLimit_fresh ip now limits :
  (limits !! ip = None ∨ ∃ e, limits !! ip = Some e ∧ resetTime e < now) ->
  rateLimit ip now limits
  = (None, <[ip := Entry 1 (now + RATE_LIMIT_windowMs)]> limits).
Proof.
  unfold rateLimit. intros [-> | (e & -> & Hlt)]; [reflexivity|].
  destruct (Z.ltb_spec (resetTime e) now); [reflexivity | lia].
Qed.

Lemma rateLimit_each_running ip times : ∀ limits e,
  limits !! ip = Some e ->
  (∀ t, t ∈ times -> t <= resetTime e) ->
  (∀ i r, (rateLimit_each ip times limits).1 !! i = Some r ->
          (is_Some r <-> 100 < count e + Z.of_nat i + 1))
  ∧ (rateLimit_each ip times limits).2 !! ip
    = Some (Entry (count e + Z.of_nat (length times)) (resetTime e)).
Proof.
  induction times as [|t rest IH]; intros limits e He Hall.
  - cbn. split; [intros i r Hi; now rewrite lookup_nil in Hi|].
    rewrite He. destruct e. cbn. do 2 f_equal. lia.
  - cbn [rateLimit_each].
    rewrite (rateLimit_running ip t limits e He) by (apply Hall; left).
    specialize (IH (<[ip := Entry (count e + 1) (resetTime e)]> limits)
                  (Entry (count e + 1) (resetTime e))
                  ltac:(apply lookup_insert_eq)
                  ltac:(intros t' Ht'; apply Hall; now right)).
    destruct (rateLimit_each ip rest _) as [rs limits'].
    destruct IH as [IHr IHl]. cbn [fst snd count resetTime] in *. split.
    + intros [|i] r Hi; cbn in Hi.
      * injection Hi as <-. unfold RATE_LIMIT_max.
        destruct (Z.ltb_spec 100 (count e + 1)); split;
          intros Hr; try lia; eauto; now destruct Hr.
      * rewrite (IHr i r Hi). lia.
    + rewrite IHl. cbn [length]. do 2 f_equal. lia.
Qed.

Lemma rateLimit_each_fresh ip (t1 : Z) (rest : list Z) limits :
  limits !! ip = None ->
  (∀ t, t ∈ rest -> t <= t1 + RATE_LIMIT_windowMs) ->
  (∀ i r, (rateLimit_each ip (t1 :: rest) limits).1 !! i = Some r ->
          (is_Some r <-> (100 <= i)%nat))
  ∧ (rateLimit_each ip (t1 :: rest) limits).2 !! ip
    = Some (Entry (1 + Z.of_nat (length rest)) (t1 + RATE_LIMIT_windowMs)).
Proof.
  intros Hnone Hall. cbn [rateLimit_each].
  rewrite rateLimit_fresh by now left.
  destruct (rateLimit_each_running ip rest
              (<[ip := Entry 1 (t1 + RATE_LIMIT_windowMs)]> limits)
              (Entry 1 (t1 + RATE_LIMIT_windowMs))
              ltac:(apply lookup_insert_eq) Hall) as [Hr Hl].
  destruct (rateLimit_each ip rest _) as [rs limits'].
  cbn [fst snd count resetTime] in *. split; [|exact Hl].
  intros [|i] r Hi; cbn in Hi.
  - injection Hi as <-. split; [intros [? [=]] | lia].
  - rewrite (Hr i r Hi). lia.
Qed.

(** X15. A window admits 100 requests: when an origin unknown to the
    limiter calls at clock readings of which none is later than 15 minutes
    after the first, the first 100 calls return [null] and every later call
    is rejected; the origin's entry then counts all calls, the rejected ones
    too, and keeps the reset time of the first. *)
Theorem window_admits_one_hundred ip (t1 : Z) (rest : list Z) limits :
  limits !! ip = None ->
  (∀ t, t ∈ rest -> t <= t1 + RATE_LIMIT_windowMs) ->
  (∀ i r, (rateLimit_each ip (t1 :: rest) limits).1 !! i = Some r ->
          (r = None <-> (i < 100)%nat))
  ∧ (rateLimit_each ip (t1 :: rest) limits).2 !! ip
    = Some (Entry (Z.of_nat (length (t1 :: rest))) (t1 + RATE_LIMIT_windowMs)).
Proof.
  intros Hnone Hall.
  destruct (rateLimit_each_fresh ip t1 rest limits Hnone Hall) as [Hr Hl].
  split.
  - intros i r Hi. specialize (Hr i r Hi). destruct r as [rej|].
    + split; [discriminate|]. intros Hlt.
      assert (100 <= i)%nat by (apply Hr; eauto). lia.
    + split; [|done]. intros _.
      destruct (decide (i < 100)%nat); [done|].
      assert (is_Some (@None rejection)) as [? [=]]. apply Hr. lia.
  - rewrite Hl. cbn [length]. do 2 f_equal. lia.
Qed.

Lemma ceil_div_1000 (a : Z) :
  a <= 1000 * ceil_div a 1000 < a + 1000.
Proof.
  unfold ceil_div.
  pose proof (Z.div_mod (- a) 1000 ltac:(lia)).
  pose proof (Z.mod_pos_bound (- a) 1000 ltac:(lia)). lia.
Qed.

(** X16. What a rejection tells: a rejection is always status 429 "Too many
    requests"; its [retryAfter] is the time left in the window in seconds,
    rounded up, hence not negative; the rejected call has been counted; and a
    call made later than [retryAfter] seconds after the rejected one is
    admitted and opens a new window with count 1. *)
Theorem rejection_is_honoured ip now limits rej limits' :
  rateLimit ip now limits = (Some rej, limits') ->
  status rej = 429 ∧ error rej = "Too many requests"
  ∧ 0 <= retryAfter rej
  ∧ (∃ e, limits !! ip = Some e
          ∧ limits' = <[ip := Entry (count e + 1) (resetTime e)]> limits
          ∧ RATE_LIMIT_max <= count e
          ∧ resetTime e - now <= 1000 * retryAfter rej < resetTime e - now + 1000)
  ∧ ∀ now', now + 1000 * retryAfter rej < now' ->
            rateLimit ip now' limits'
            = (None, <[ip := Entry 1 (now' + RATE_LIMIT_windowMs)]> limits').
Proof.
  unfold rateLimit at 1. destruct (limits !! ip) as [e|] eqn:He; [|discriminate].
  destruct (Z.ltb_spec (resetTime e) now) as [|Hnow]; [discriminate|].
  cbn [count resetTime].
  destruct (Z.ltb_spec RATE_LIMIT_max (count e + 1)) as [Hmax|]; [|discriminate].
  intros [= <- <-]. cbn [status error retryAfter].
  pose proof (ceil_div_1000 (resetTime e - now)) as Hceil.
  split_and!; try done; [lia | |].
  - exists e. split_and!; try done; unfold RATE_LIMIT_max in *; lia.
  - intros now' Hlater. apply rateLimit_fresh. right.
    exists (Entry (count e + 1) (resetTime e)).
    rewrite lookup_insert_eq. split; [done|]. cbn. lia.
Qed.

(** X17. The sweep is invisible: after a sweep at an earlier or equal clock
    reading, [rateLimit] returns the same result and leaves the same entry
    for the origin as without the sweep; and the sweep keeps every entry whose
    window ended less than 15 minutes before. *)
Theorem cleanup_is_invisible ip now now' limits :
  now' <= now ->
  (rateLimit ip now (cleanup now' limits)).1 = (rateLimit ip now limits).1
  ∧ (rateLimit ip now (cleanup now' limits)).2 !! ip
    = (rateLimit ip now limits).2 !! ip
  ∧ ∀ e, limits !! ip = Some e -> now' <= resetTime e + RATE_LIMIT_windowMs ->
         cleanup now' limits !! ip = Some e.
Proof.
  intros Hle.
  assert (Hlook : cleanup now' limits !! ip = limits !! ip
                  ∨ (cleanup now' limits !! ip = None
                     ∧ ∃ e, limits !! ip = Some e
                            ∧ resetTime e + RATE_LIMIT_windowMs < now')).
  { unfold cleanup. rewrite map_lookup_filter.
    destruct (limits !! ip) as [e|]; [|now left]. cbn.
    destruct (decide (resetTime e + RATE_LIMIT_windowMs < now')) as [Hd|Hd].
    - right. rewrite option_guard_False by (cbn; tauto). eauto.
    - left. now rewrite option_guard_True. }
  split_and!.
  - destruct Hlook as [Heq | (Hnone & e & He & Hold)].
    + unfold rateLimit. rewrite Heq.
      destruct (limits !! ip) as [e|]; cbn; [|done].
      destruct (resetTime e <? now); cbn; [done|].
      now destruct (RATE_LIMIT_max <? count e + 1).
    + rewrite !rateLimit_fresh; [done | right | now left].
      exists e. split; [done|]. unfold RATE_LIMIT_windowMs in *. lia.
  - destruct Hlook as [Heq | (Hnone & e & He & Hold)].
    + unfold rateLimit. rewrite Heq.
      destruct (limits !! ip) as [e|]; cbn;
        [destruct (resetTime e <? now); cbn;
         [|destruct (RATE_LIMIT_max <? count e + 1); cbn]|];
        now rewrite !lookup_insert_eq.
    + rewrite !rateLimit_fresh; [| right | now left].
      * cbn. now rewrite !lookup_insert_eq.
      * exists e. split; [done|]. unfold RATE_LIMIT_windowMs in *. lia.
  - intros e He Hkeep. destruct Hlook as [Heq | (_ & e' & He' & Hold)].
    + now rewrite Heq.
    + rewrite He in He'. injection He' as <-. lia.
Qed.

End RateLimitProperties.

(** ** Properties of the route wrappers *)

Section ApiProperties.

Context `{Numbers num}.
Implicit Types (req : request (num:=num)) (st : Api.state).

Lemma rateLimit_status ip now limits rej limits' :
  RateLimit.rateLimit ip now limits = (Some rej, limits') ->
  RateLimit.status rej = 429 ∧ RateLimit.error rej = "Too many requests".
Proof.
  unfold RateLimit.rateLimit. destruct (limits !! ip) as [e|]; [|discriminate].
  destruct (RateLimit.resetTime e <? now); [discriminate|]. cbv zeta.
  destruct (RateLimit.RATE_LIMIT_max <? _); [|discriminate].
  now intros [= <- _].
Qed.

Lemma withAuth_limits auth req st :
  Api.rateLimits (Api.withAuth auth Api.route_handler req st).2
  = Api.rateLimits st
  ∧ Api.status (Api.withAuth auth Api.route_handler req st).1 ≠ 429.
Proof.
  unfold Api.withAuth, Api.requireAuth, Api.getCurrentUser, Api.route_handler.
  destruct auth, (json_body req); cbn; split; (reflexivity || discriminate).
Qed.

Lemma POST_step auth now req st :
  let limited :=
    RateLimit.rateLimit (or_else (x_forwarded_for req) "127.0.0.1") now
      (Api.rateLimits st) in
  Api.rateLimits (Api.POST auth now req st).2 = limited.2
  ∧ (Api.status (Api.POST auth now req st).1 = 429 <-> is_Some limited.1).
Proof.
  intros limited. unfold limited, Api.POST, Api.withRateLimit.
  destruct (RateLimit.rateLimit _ now (Api.rateLimits st)) as [[rej|] limits']
    eqn:Hr; cbn [fst snd].
  - destruct (rateLimit_status _ _ _ _ _ Hr) as [-> _]. cbn.
    split; [reflexivity | split; eauto].
  - destruct (withAuth_limits auth req (Api.State limits' (Api.console_of st)))
      as [Hl Hs].
    split; [exact Hl|]. split; [done | intros [? [=]]].
Qed.

(** X18. The limiter is charged before authentication: the route leaves the
    limiter map exactly as [rateLimit] leaves it for the caller's address
    ([x-forwarded-for], or [127.0.0.1]), whatever the credentials and the body
    are.  A call the limiter rejects is answered 429 with the [Retry-After]
    header, without the credentials being looked at (nothing is logged); a
    call it admits is answered 401 when there is no user, otherwise by the
    route's handler. *)
Theorem limiter_is_charged_before_auth auth now req st :
  let ip := or_else (x_forwarded_for req) "127.0.0.1" in
  let limited := RateLimit.rateLimit ip now (Api.rateLimits st) in
  Api.rateLimits (Api.POST auth now req st).2 = limited.2
  ∧ (∀ rej, limited.1 = Some rej ->
       Api.POST auth now req st =
         (Api.Response 429 (Some (pretty (RateLimit.retryAfter rej)))
            (Api.RateLimited "Too many requests" (RateLimit.retryAfter rej)),
          Api.State limited.2 (Api.console_of st)))
  ∧ (limited.1 = None ->
       (∀ user, auth ≠ Api.AuthUser user) ->
       (Api.POST auth now req st).1 = Api.Response 401 None Api.Unauthorized)
  ∧ (limited.1 = None ->
       ∀ user, auth = Api.AuthUser user ->
       Api.POST auth now req st
       = Api.route_handler req (Api.State limited.2 (Api.console_of st))).
Proof.
  intros ip limited. unfold Api.POST, Api.withRateLimit. fold ip.
  unfold limited.
  destruct (RateLimit.rateLimit ip now (Api.rateLimits st)) as [[rej|] limits']
    eqn:Hr; cbn [fst snd]; split_and!.
  - reflexivity.
  - intros rej' [= <-]. destruct (rateLimit_status _ _ _ _ _ Hr) as [-> ->].
    reflexivity.
  - discriminate.
  - discriminate.
  - apply (withAuth_limits auth req (Api.State limits' (Api.console_of st))).
  - discriminate.
  - intros _ Hno. unfold Api.withAuth, Api.requireAuth, Api.getCurrentUser.
    destruct auth; try reflexivity. now destruct (Hno user).
  - intros _ user ->. reflexivity.
Qed.

Lemma POST_each_limiter ip (calls : list (Api.route_call (num:=num))) : ∀ st,
  (∀ c, c ∈ calls ->
        or_else (x_forwarded_for (Api.rc_req c)) "127.0.0.1" = ip) ->
  Forall2 (fun resp r => Api.status resp = 429 <-> is_Some r)
    (Api.POST_each calls st).1
    (RateLimit.rateLimit_each ip (Api.rc_now <$> calls) (Api.rateLimits st)).1
  ∧ Api.rateLimits (Api.POST_each calls st).2
    = (RateLimit.rateLimit_each ip (Api.rc_now <$> calls) (Api.rateLimits st)).2.
Proof.
  induction calls as [|c rest IH]; intros st Hip; [now split|].
  cbn [Api.POST_each RateLimit.rateLimit_each fmap list_fmap].
  pose proof (POST_step (Api.rc_auth c) (Api.rc_now c) (Api.rc_req c) st)
    as (Hl & Hst).
  cbn zeta in Hl, Hst. rewrite (Hip c ltac:(left)) in Hl, Hst.
  destruct (Api.POST (Api.rc_auth c) (Api.rc_now c) (Api.rc_req c) st)
    as [resp st1].
  destruct (RateLimit.rateLimit ip (Api.rc_now c) (Api.rateLimits st))
    as [r limits1].
  cbn [fst snd] in *. subst limits1.
  specialize (IH st1 ltac:(intros c' Hc'; apply Hip; now right)).
  destruct (Api.POST_each rest st1) as [resps st2].
  destruct (RateLimit.rateLimit_each ip (Api.rc_now <$> rest) (Api.rateLimits st1))
    as [rs limits2].
  cbn [fst snd] in *. destruct IH as [IHf IHl]. split; [|done].
  now constructor.
Qed.

(** X19. Unauthenticated traffic locks an address out: when calls arrive
    from one address unknown to the limiter, none later than 15 minutes after
    the first, exactly the first 100 are not answered 429 and every later one
    is - whatever credentials and bodies the calls carry, so after 100 calls
    without a user a call with a valid user is rejected as well. *)
Theorem hundred_calls_lock_the_address ip (c1 : Api.route_call (num:=num))
    (rest : list Api.route_call) st :
  Api.rateLimits st !! ip = None ->
  (∀ c, c ∈ c1 :: rest ->
        or_else (x_forwarded_for (Api.rc_req c)) "127.0.0.1" = ip) ->
  (∀ c, c ∈ rest ->
        Api.rc_now c <= Api.rc_now c1 + RateLimit.RATE_LIMIT_windowMs) ->
  ∀ i resp, (Api.POST_each (c1 :: rest) st).1 !! i = Some resp ->
            (Api.status resp = 429 <-> (100 <= i)%nat).
Proof.
  intros Hnone Hip Hwin i resp Hi.
  destruct (POST_each_limiter ip (c1 :: rest) st Hip) as [Hf _].
  destruct (Forall2_lookup_l _ _ _ _ _ Hf Hi) as (r & Hr & Hiff).
  change (Api.rc_now <$> c1 :: rest)
    with (Api.rc_now c1 :: (Api.rc_now <$> rest)) in Hr.
  destruct (rateLimit_each_fresh ip (Api.rc_now c1) (Api.rc_now <$> rest)
              (Api.rateLimits st) Hnone) as [Hadm _].
  { intros t Ht. apply list_elem_of_fmap in Ht as (c & -> & Hc). now apply Hwin. }
  rewrite Hiff. exact (Hadm i r Hr).
Qed.

End ApiProperties.

(** ** Properties of the form reader *)

Section GetFormProperties.

Context `{Numbers num}.
Implicit Types (req : request (num:=num)).
Implicit Types (table : list (GetForm.form_row (num:=num))).

(** Without a session the policy shows no row. *)
Lemma select_active_anonymous qerr table (formId : string) :
  ∃ e, GetForm.select_active qerr None table formId = DbError e.
Proof.
  unfold GetForm.select_active. destruct qerr as [e|]; [now exists e|].
  rewrite filter_nothing; [eauto|].
  intros r _ (Hpolicy & _). discriminate Hpolicy.
Qed.

Lemma reader_not_found req qerr table :
  String.eqb (method req) "OPTIONS" = false ->
  String.eqb (formId_of req) "" = false ->
  GetForm.serve req qerr table =
    GetForm.Response 404 true (GetForm.ErrorBody "Form not found").
Proof.
  intros Hm Hid. unfold GetForm.serve. rewrite Hm, Hid.
  now destruct (select_active_anonymous qerr table (formId_of req)) as [e ->].
Qed.

(** X20. The reader serves no form.  It queries [forms] without a session,
    and the one SELECT policy of the table shows a row to its owner only: so
    whatever the table holds, no request is answered 200 with a form; a
    request other than a preflight is answered 404 "Form not found" when it
    names a form, also a form for which the intake handler, with its
    service-role key, stores a submission; and it is answered 400 exactly
    when the intake handler answers 400. *)
Theorem reader_serves_no_form req qerr table :
  (∀ sel, GetForm.serve req qerr table
          ≠ GetForm.Response 200 true (GetForm.FormBody sel))
  ∧ (method req ≠ "OPTIONS" -> formId_of req ≠ "" ->
     GetForm.serve req qerr table =
       GetForm.Response 404 true (GetForm.ErrorBody "Form not found"))
  ∧ (∀ env (w : world (num:=num)) row,
       stores req env w row ->
       GetForm.serve req qerr table =
         GetForm.Response 404 true (GetForm.ErrorBody "Form not found"))
  ∧ (∀ env (w : world (num:=num)),
       GetForm.status (GetForm.serve req qerr table) = 400
       <-> status (serve req env w).1 = 400).
Proof.
  split_and!.
  - intros sel. unfold GetForm.serve.
    destruct (String.eqb (method req) "OPTIONS"); [discriminate|].
    destruct (String.eqb (formId_of req) ""); [discriminate|].
    now destruct (select_active_anonymous qerr table (formId_of req)) as [e ->].
  - intros Hm Hid. apply String.eqb_neq in Hm, Hid. now apply reader_not_found.
  - intros env w row Hst.
    destruct (stores_accepted _ _ _ _ Hst) as (f & data & sc & Hacc & _).
    destruct Hacc as (Hm & Hid & _). now apply reader_not_found.
  - intros env w.
    destruct (String.eqb (method req) "OPTIONS") eqn:Hm;
      [unfold GetForm.serve, serve, serve_handler; rewrite Hm; cbn;
       split; discriminate|].
    destruct (String.eqb (formId_of req) "") eqn:Hid;
      [unfold GetForm.serve, serve, serve_handler; rewrite Hm, Hid; now cbn|].
    rewrite reader_not_found by done. cbn. split; [discriminate|].
    destruct (accepted_or_not req env w) as [(f & data & sc & id & Hacc)|Hno].
    + destruct (serve_accepted _ _ _ _ _ _ _ Hacc) as (-> & _). discriminate.
    + unfold serve, serve_handler. rewrite Hm, Hid.
      destruct (select_active_form _ _ _) as [f|e] eqn:Hf; [|discriminate].
      destruct (json_body req) as [data|e] eqn:Hb; [|discriminate].
      destruct (detectSpam data _ _ _ _) as [[sc|thrown] cache];
        [|discriminate].
      destruct (submission_insert env); cbn; discriminate.
Qed.

End GetFormProperties.

(** ** Properties of [generateShortId] *)

Lemma split_first_part (sep : ascii) (a b : string) : ∀ cur,
  sep ∉ list_ascii_of_string a ->
  head (split sep cur (a +:+ String sep b)) = Some (cur +:+ a).
Proof.
  induction a as [|c a IH]; intros cur Hno.
  - change ("" +:+ String sep b) with (String sep b). cbn [split].
    rewrite Ascii.eqb_refl. cbn. f_equal.
    induction cur as [|x cur IHc]; [reflexivity|].
    change (String x cur = String x (cur +:+ "")). now rewrite <- IHc.
  - change (String c a +:+ String sep b) with (String c (a +:+ String sep b)).
    cbn [split]. cbn in Hno. apply not_elem_of_cons in Hno as [Hc Ha].
    destruct (Ascii.eqb_spec c sep) as [->|_]; [done|].
    rewrite IH by done. now rewrite append_assoc.
Qed.

(** X22. The short id is the text before the first dash: for a string
    whose part before the first dash is [a], [generateShortId] returns [a];
    for a string without a dash it returns the whole string. *)
Theorem generateShortId_is_first_group (a b : string) :
  "-"%char ∉ list_ascii_of_string a ->
  generateShortId (a +:+ String "-" b) = a ∧ generateShortId a = a.
Proof.
  intros Hno. unfold generateShortId. split.
  - now rewrite split_first_part.
  - now rewrite split_no_separator.
Qed.

(** ** The further properties on the sample data *)

Ltac each_member H :=
  repeat (apply elem_of_cons in H as [-> | H]); [..| now apply elem_of_nil in H].

Ltac no_such_char :=
  let Hin := fresh in
  cbn; intros Hin;
  repeat (apply elem_of_cons in Hin as [Hin | Hin]; [discriminate Hin|]);
  now apply elem_of_nil in Hin.

Lemma verdict_is_consistent_witness :
  (detectSpam bot "1.2.3.4" sample_now sample_now busy_cache).1
  = Returns (SpamCheck true "Honeypot field was filled"
               [Signal "honeypot_filled" 100])
  ∧ 70 <= totalScore [Signal "honeypot_filled" 100].
Proof.
  assert (Hr : (detectSpam bot "1.2.3.4" sample_now sample_now busy_cache).1
               = Returns (SpamCheck true "Honeypot field was filled"
                            [Signal "honeypot_filled" 100])) by run.
  split; [exact Hr|].
  now apply (verdict_is_consistent bot "1.2.3.4" sample_now sample_now busy_cache
               _ Hr).
Defined.

Lemma origins_do_not_interfere_witness :
  (detectSpam plain "1.2.3.4" sample_now sample_now busy_cache).2 !! "5.6.7.8"
  = busy_cache !! "5.6.7.8"
  ∧ (detectSpam plain "1.2.3.4" sample_now sample_now
       (<["5.6.7.8" := [sample_now]]> busy_cache)).1
    = (detectSpam plain "1.2.3.4" sample_now sample_now busy_cache).1.
Proof.
  destruct (origins_do_not_interfere plain "1.2.3.4" "5.6.7.8" sample_now
              sample_now busy_cache (<["5.6.7.8" := [sample_now]]> busy_cache)
              ltac:(discriminate) ltac:(run)) as (Hother & Hverdict & _).
  now split.
Defined.

Lemma history_stays_bounded_witness :
  (length <$> (detectSpam plain "1.2.3.4" sample_now sample_now calm_cache).2
                !! "1.2.3.4")
  = Some 3%nat.
Proof.
  destruct ((detectSpam plain "1.2.3.4" sample_now sample_now calm_cache).2
              !! "1.2.3.4") as [l|] eqn:Hl; [|vm_compute in Hl; discriminate].
  assert (Hle : (length l <= 3)%nat).
  { apply (history_stays_bounded plain "1.2.3.4" sample_now sample_now calm_cache)
      with (o := "1.2.3.4"); [|exact Hl].
    intros o l' Hl'. unfold calm_cache in Hl'.
    apply lookup_singleton_Some in Hl' as [_ <-]. cbn. lia. }
  vm_compute in Hl. injection Hl as <-. reflexivity.
Defined.

Lemma burst_is_cut_at_three_witness :
  (∀ x, (detectSpam_each "1.2.3.4" burst ∅).1 !! 2%nat = Some x ->
        ∃ r, x = Returns r ∧ rate_limited r = false)
  ∧ (∀ x, (detectSpam_each "1.2.3.4" burst ∅).1 !! 3%nat = Some x ->
          ∃ r, x = Returns r ∧ rate_limited r = true)
  ∧ default [] ((detectSpam_each "1.2.3.4" burst ∅).2 !! "1.2.3.4")
    = [sample_now; sample_now + 1000; sample_now + 2000].
Proof.
  destruct (burst_is_cut_at_three "1.2.3.4" burst ∅) as (_ & Hv & Hh).
  - reflexivity.
  - intros c Hc. unfold burst in Hc. each_member Hc; split; run.
  - intros c c' Hc Hc'. unfold burst in Hc, Hc'.
    each_member Hc; each_member Hc'; reflexivity.
  - split_and!.
    + intros x Hx. destruct (Hv _ _ Hx) as (r & -> & Hr).
      exists r. split; [reflexivity | now rewrite Hr].
    + intros x Hx. destruct (Hv _ _ Hx) as (r & -> & Hr).
      exists r. split; [reflexivity | now rewrite Hr].
    + rewrite Hh. reflexivity.
Defined.

Lemma stale_history_is_dropped_witness :
  (detectSpam plain "1.2.3.4" sample_now (sample_now + 300000) busy_cache).2
    !! "1.2.3.4"
  = Some [sample_now + 300000].
Proof.
  rewrite (stale_history_is_dropped plain "1.2.3.4" sample_now
             (sample_now + 300000) busy_cache ltac:(run) ltac:(run)).
  - apply lookup_insert_eq.
  - intros ts Hts. vm_compute in Hts. each_member Hts; vm_compute; discriminate.
Defined.

Lemma short_fields_have_no_multiple_urls_witness :
  hasMultipleUrls bob = false.
Proof.
  apply short_fields_have_no_multiple_urls. intros k s Hk.
  unfold bob in Hk.
  repeat (apply lookup_insert_Some in Hk as [[_ Hk] | [_ Hk]];
          [injection Hk as <-; cbn; lia|]).
  apply lookup_singleton_Some in Hk as [_ Hk]. injection Hk as <-. cbn. lia.
Defined.

Lemma embed_submission_timing_witness :
  (detectSpam (embed_data visitor_entries (sample_now - 500)) "1.2.3.4"
     sample_now sample_now ∅).1
  = Returns (SpamCheck true "Form submitted too quickly" [Signal "too_fast" 80])
  ∧ (detectSpam (embed_data visitor_entries (sample_now - 5000)) "1.2.3.4"
       sample_now sample_now ∅).1
    = Returns (SpamCheck false "" []).
Proof.
  split.
  - rewrite (proj1 (embed_submission_timing (num:=safe_integer) visitor_entries
                      (sample_now - 500) sample_now sample_now "1.2.3.4" ∅
                      ltac:(run)) ltac:(reflexivity)).
    reflexivity.
  - rewrite (proj2 (embed_submission_timing (num:=safe_integer) visitor_entries
                      (sample_now - 5000) sample_now sample_now "1.2.3.4" ∅
                      ltac:(run)) ltac:(vm_compute; discriminate)).
    run.
Defined.

Lemma formId_of_embed_path_witness :
  formId_of (post (embed_path "/project" "f1") bob) = "f1".
Proof.
  apply (formId_of_embed_path _ "/project" "f1"); [reflexivity | no_such_char].
Defined.

Lemma missing_form_id_is_bad_request_witness :
  serve (post "/functions/v1/submit-form/" bob) all_well sample_world
  = (Response 400 true (ErrorBody "Form ID is required"), sample_world).
Proof.
  apply (missing_form_id_is_bad_request _ _ _ "/functions/v1/submit-form");
    [discriminate | now right].
Defined.

Lemma serve_keeps_references_resolved_witness :
  references_resolve (db sample_world)
  ∧ references_resolve (db (serve (post intake_path bot) all_well sample_world).2).
Proof.
  assert (Hbefore : references_resolve (db sample_world))
    by (split; intros x Hx; now apply elem_of_nil in Hx).
  split; [exact Hbefore|].
  exact (proj2 (serve_keeps_references_resolved (post intake_path bot) all_well
                  sample_world) Hbefore).
Defined.

Lemma notification_lists_public_fields_witness :
  ∃ m, outbox (serve (post intake_path bob) all_well sample_world).2 = [m]
       ∧ email_to m = ["owner@example.org"]
       ∧ html_fields m !! "name" = Some (VStr "Bob")
       ∧ html_fields m !! "__timestamp" = None.
Proof.
  destruct (notification_lists_public_fields (post intake_path bob) all_well
              sample_world bob_row contact_form
              ltac:(run) ltac:(run) ltac:(reflexivity) ltac:(run))
    as (m & Hout & Hto & _ & Hfields).
  exists m. split_and!; [exact Hout | exact Hto | |].
  - rewrite Hfields. run.
  - rewrite Hfields. run.
Defined.

Lemma failed_insert_uses_quota_witness :
  serve (post intake_path bob) submissions_down sample_world =
    (Response 500 true (ErrorBody "Failed to save submission"),
     World (db sample_world) {[ "1.2.3.4" := [sample_now] ]}
       [ConsoleError "Error inserting submission:"
          "relation submissions is unavailable"] [])
  ∧ serve (post intake_path unconvertible) submissions_down sample_world =
      (Response 500 true (ErrorBody "Internal server error"),
       World (db sample_world) ∅
         [ConsoleError "Error processing submission:" type_error] []).
Proof.
  destruct (failed_insert_uses_quota (post intake_path bob) submissions_down
              sample_world contact_form bob "relation submissions is unavailable"
              ltac:(discriminate) ltac:(discriminate) ltac:(run)
              ltac:(reflexivity) ltac:(reflexivity)) as [Hreturns _].
  destruct (failed_insert_uses_quota (post intake_path unconvertible)
              submissions_down sample_world contact_form unconvertible
              "relation submissions is unavailable"
              ltac:(discriminate) ltac:(discriminate) ltac:(run)
              ltac:(reflexivity) ltac:(reflexivity)) as [_ Hthrows].
  destruct (Hreturns (SpamCheck false "" []) ltac:(run)) as [Hserve _].
  specialize (Hthrows type_error ltac:(run)).
  split; [rewrite Hserve; run | exact Hthrows].
Defined.

Lemma window_admits_one_hundred_witness :
  (∀ r, (RateLimit.rateLimit_each "1.2.3.4"
           (sample_now :: replicate 100 (sample_now + 1)) ∅).1 !! 99%nat = Some r ->
        r = None)
  ∧ (∀ r, (RateLimit.rateLimit_each "1.2.3.4"
             (sample_now :: replicate 100 (sample_now + 1)) ∅).1 !! 100%nat = Some r ->
          r ≠ None)
  ∧ (RateLimit.rateLimit_each "1.2.3.4"
       (sample_now :: replicate 100 (sample_now + 1)) ∅).2 !! "1.2.3.4"
    = Some (RateLimit.Entry 101 (sample_now + RateLimit.RATE_LIMIT_windowMs)).
Proof.
  destruct (window_admits_one_hundred "1.2.3.4" sample_now
              (replicate 100 (sample_now + 1)) ∅) as [Hadm Hentry].
  - reflexivity.
  - intros t Ht. apply elem_of_replicate in Ht as [-> _]. vm_compute. discriminate.
  - split_and!.
    + intros r Hr. apply (Hadm _ _ Hr). lia.
    + intros r Hr Hnone. apply (Hadm _ _ Hr) in Hnone. lia.
    + exact Hentry.
Defined.

Lemma rejection_is_honoured_witness :
  (RateLimit.rateLimit "1.2.3.4" sample_now nearly_full).1
  = Some (RateLimit.Rejection "Too many requests" 429 1)
  ∧ (RateLimit.rateLimit "1.2.3.4" (sample_now + 1001)
       (RateLimit.rateLimit "1.2.3.4" sample_now nearly_full).2).1 = None.
Proof.
  assert (Hrej : RateLimit.rateLimit "1.2.3.4" sample_now nearly_full
                 = (Some (RateLimit.Rejection "Too many requests" 429 1),
                    <["1.2.3.4" := RateLimit.Entry 101 (sample_now + 500)]>
                      nearly_full)) by run.
  destruct (rejection_is_honoured _ _ _ _ _ Hrej) as (_ & _ & _ & _ & Hretry).
  rewrite Hrej. split; [reflexivity|]. cbn [snd].
  now rewrite (Hretry (sample_now + 1001) ltac:(reflexivity)).
Defined.

Lemma cleanup_is_invisible_witness :
  (RateLimit.rateLimit "1.2.3.4" (sample_now + 3600000)
     (RateLimit.cleanup (sample_now + 3600000) nearly_full)).1
  = (RateLimit.rateLimit "1.2.3.4" (sample_now + 3600000) nearly_full).1
  ∧ RateLimit.cleanup (sample_now + 3600000) nearly_full !! "1.2.3.4" = None.
Proof.
  split; [|run].
  exact (proj1 (cleanup_is_invisible "1.2.3.4" (sample_now + 3600000)
                  (sample_now + 3600000) nearly_full ltac:(reflexivity))).
Defined.

Lemma limiter_is_charged_before_auth_witness :
  (Api.POST Api.AuthNoUser sample_now (post "/api/route" plain)
     no_calls_yet).1
  = Api.Response 401 None Api.Unauthorized
  ∧ Api.rateLimits
      (Api.POST Api.AuthNoUser sample_now (post "/api/route" plain)
         no_calls_yet).2 !! "1.2.3.4"
    = Some (RateLimit.Entry 1 (sample_now + RateLimit.RATE_LIMIT_windowMs)).
Proof.
  destruct (limiter_is_charged_before_auth Api.AuthNoUser sample_now
              (post "/api/route" plain) no_calls_yet)
    as (Hlimits & _ & Hno & _).
  split.
  - apply Hno; [reflexivity | discriminate].
  - rewrite Hlimits. run.
Defined.

Lemma hundred_calls_lock_the_address_witness :
  Api.status
    <$> (Api.POST_each (anonymous :: replicate 99 anonymous ++ [signed_in])
           no_calls_yet).1 !! 100%nat
  = Some 429.
Proof.
  destruct ((Api.POST_each (anonymous :: replicate 99 anonymous ++ [signed_in])
               no_calls_yet).1 !! 100%nat) as [resp|] eqn:Hresp;
    [|vm_compute in Hresp; discriminate].
  cbn. f_equal.
  apply (hundred_calls_lock_the_address "1.2.3.4" anonymous
           (replicate 99 anonymous ++ [signed_in]) no_calls_yet
           ltac:(run)) in Hresp.
  - now apply Hresp.
  - intros c Hc. apply elem_of_cons in Hc as [-> | Hc]; [reflexivity|].
    apply elem_of_app in Hc as [Hc | Hc].
    + apply elem_of_replicate in Hc as [-> _]. reflexivity.
    + apply list_elem_of_singleton in Hc as ->. reflexivity.
  - intros c Hc. apply elem_of_app in Hc as [Hc | Hc].
    + apply elem_of_replicate in Hc as [-> _]. vm_compute. discriminate.
    + apply list_elem_of_singleton in Hc as ->. vm_compute. discriminate.
Defined.

Lemma reader_serves_no_form_witness :
  (serve (post intake_path bob) all_well sample_world).1 = success "s1"
  ∧ GetForm.serve (post intake_path bob) None sample_table
    = GetForm.Response 404 true (GetForm.ErrorBody "Form not found")
  ∧ GetForm.serve (post "/functions/v1/get-form/f1" plain) None sample_table
    = GetForm.Response 404 true (GetForm.ErrorBody "Form not found").
Proof.
  assert (Hbob : stores (post intake_path bob) all_well sample_world bob_row)
    by run.
  destruct (reader_serves_no_form (post intake_path bob) None sample_table)
    as (_ & _ & Hstored & _).
  destruct (reader_serves_no_form (post "/functions/v1/get-form/f1" plain) None
              sample_table) as (_ & Hnamed & _).
  split; [run|]. split.
  - exact (Hstored all_well sample_world bob_row Hbob).
  - apply Hnamed; [discriminate | vm_compute; discriminate].
Defined.

Lemma generateShortId_is_first_group_witness :
  generateShortId "3f2a9c1e-77b0-4c1d-9a53-0d7e6b2f8a41" = "3f2a9c1e".
Proof.
  apply (proj1 (generateShortId_is_first_group "3f2a9c1e"
                  "77b0-4c1d-9a53-0d7e6b2f8a41" ltac:(no_such_char))).
Defined.

(** ** Properties of the field list *)

Section FormBuilderProperties.

Import FormBuilder.

Context {FormField : Type}.
Implicit Types (st : state (FormField:=FormField)) (l : list FormField).

Lemma filter_index_all (keep : nat -> bool) l : ∀ n,
  (∀ k, (n <= k)%nat -> keep k = true) -> filter_index keep n l = l.
Proof.
  induction l as [|x l IH]; intros n Hkeep; [reflexivity|].
  cbn. rewrite Hkeep by lia. f_equal. apply IH. intros k Hk. apply Hkeep. lia.
Qed.

Lemma filter_index_delete (keep : nat -> bool) l : ∀ n index,
  (∀ k, keep k = negb (Nat.eqb k (n + index))) ->
  filter_index keep n l = delete index l.
Proof.
  induction l as [|x l IH]; intros n index Hkeep; [reflexivity|].
  cbn [filter_index]. rewrite Hkeep. destruct index as [|index].
  - rewrite Nat.add_0_r, Nat.eqb_refl. cbn.
    apply filter_index_all. intros k Hk. rewrite Hkeep.
    destruct (Nat.eqb_spec k (n + 0)); [lia | reflexivity].
  - destruct (Nat.eqb_spec n (n + S index)); [lia|]. cbn. f_equal.
    apply IH. intros k. rewrite Hkeep. f_equal. f_equal. lia.
Qed.

(** X23. [deleteField] removes exactly the field at the index and keeps the
    others in order; an index past the end changes no field.  The selection
    is cleared only when it was the deleted index: a selection after it keeps
    its number, so the editor then shows the field that followed the selected
    one (or none, when the selected one was the last). *)
Theorem deleteField_shifts_the_selection (index : nat) st :
  fields (deleteField index st) = delete index (fields st)
  ∧ (length (fields st) <= index ->
     fields (deleteField index st) = fields st)%nat
  ∧ (selectedFieldIndex st = Some index -> editedField (deleteField index st) = None)
  ∧ (∀ j, selectedFieldIndex st = Some j -> (j < index)%nat ->
          editedField (deleteField index st) = editedField st)
  ∧ (∀ j, selectedFieldIndex st = Some j -> (index < j)%nat ->
          editedField (deleteField index st) = fields st !! S j).
Proof.
  assert (Hf : fields (deleteField index st) = delete index (fields st)).
  { cbn. apply filter_index_delete. intros k. reflexivity. }
  split_and!.
  - exact Hf.
  - intros Hle. rewrite Hf. clear Hf. revert index Hle.
    induction (fields st) as [|x l IH]; intros [|i] Hle; cbn in *;
      [done | done | lia | f_equal; apply IH; lia].
  - intros Hsel. unfold editedField, deleteField. cbn.
    now rewrite decide_True.
  - intros j Hsel Hlt. unfold editedField. rewrite Hf. cbn.
    rewrite decide_False by (rewrite Hsel; intros [= ->]; lia).
    rewrite Hsel. cbn. now rewrite list_lookup_delete_lt.
  - intros j Hsel Hlt. unfold editedField. rewrite Hf. cbn.
    rewrite decide_False by (rewrite Hsel; intros [= ->]; lia).
    rewrite Hsel. cbn. now rewrite list_lookup_delete_ge by lia.
Qed.

(** X24. Adding a field selects it, and deleting the field just added gives
    back the field list as it was, with nothing selected. *)
Theorem addField_then_deleteField (newField : FormField) st :
  editedField (addField newField st) = Some newField
  ∧ deleteField (length (fields st)) (addField newField st)
    = State (fields st) None.
Proof.
  split.
  - unfold editedField, addField. cbn.
    rewrite lookup_app_r by lia. now rewrite Nat.sub_diag.
  - unfold deleteField, addField. cbn [fields selectedFieldIndex].
    rewrite decide_True by done. f_equal.
    rewrite (filter_index_delete _ _ 0 (length (fields st)))
      by (intros k; reflexivity).
    induction (fields st) as [|x l IH]; [reflexivity|].
    cbn [length app]. cbn [delete list_delete]. f_equal. exact IH.
Qed.

End FormBuilderProperties.

Lemma deleteField_shifts_the_selection_witness :
  FormBuilder.editedField
    (FormBuilder.deleteField 0
       (FormBuilder.State ["name"; "email"; "message"] (Some 1%nat)))
  = Some "message".
Proof.
  destruct (deleteField_shifts_the_selection 0
              (FormBuilder.State ["name"; "email"; "message"] (Some 1%nat)))
    as (_ & _ & _ & _ & Hafter).
  now rewrite (Hafter 1%nat eq_refl ltac:(lia)).
Defined.
